(** * FlyWing DenoiSeg example notebook: a shallow embedding

    The repository is one Jupyter notebook,
    [examples/DenoiSeg_2D/FlyWing_DenoiSeg_Example.ipynb].  Its code cells
    are embedded here, top to bottom, as computations in a small state and
    exception monad.  The state is the working directory's file system and
    the chronological log of everything the notebook does to the outside
    world: operating-system calls, archive reads, calls into the DenoiSeg
    framework, plotting calls and prints.  The framework itself
    ([denoiseg], [csbdeep]) and the remote download server are not part of
    the repository; they enter as a record of functions ([env]) over which
    every statement is quantified. *)

From Stdlib Require Import ZArith QArith Qround Lia List Ascii String.
From stdpp Require Import base option list gmap strings.

Set Warnings "-register-all".
Local Open Scope Z_scope.
Local Open Scope string_scope.

(** ** Python values *)

(** Exceptions that the notebook's own statements can raise, plus
    [LibraryError] for whatever a framework call may raise. *)
Inductive exn : Type :=
| AssertionError
| NameError (name : string)
| KeyError (key : string)
| IndexError
| ZeroDivisionError
| FileExistsError (path : string)
| FileNotFoundError (path : string)
| IsADirectoryError (path : string)
| URLError (link : string)
| BadZipFile (path : string)
| ValueError
| AttributeError (name : string)
| LibraryError (what : string).

Inductive result (A : Type) : Type :=
| Ret (a : A)
| Raise (e : exn).
Arguments Ret {A} a.
Arguments Raise {A} e.

Inductive dtype : Type := Float32 | Float64 | UInt8 | UInt16 | Int64 | Object.

(** A numpy array, as far as the notebook looks into it: its shape, its
    element type and an opaque handle for its contents. *)
Record ndarray : Type := {
  shape : list N;
  elt : dtype;
  payload : N
}.

(** Literals and printed values.  Floats are the rationals they denote. *)
Inductive pyval : Type :=
| VInt (z : Z)
| VFloat (q : Q)
| VBool (b : bool)
| VStr (s : string)
| VList (l : list pyval)
| VTuple (l : list pyval).

(** ** The file system *)

(** A path of the working directory holds a directory or a file.  An
    [.npz] archive is kept apart from other zip archives: it holds named
    arrays, a zip holds named files.  The directories that a member's name
    implies are not recorded as nodes of their own. *)
Inductive content : Type :=
| Raw
| Npz (arrays : list (string * ndarray))
| Zip (members : list (string * content)).

Inductive node : Type :=
| Dir
| File (c : content).

(** ** The external framework and the network *)

Definition config : Type := list (string * pyval).

Record model : Type := {
  m_conf : config;
  m_name : string;
  m_basedir : string;
  m_weights : N
}.

Definition history : Type := list (string * list Q).

Record env : Type := {
  (* binary floating-point rounding of an exact quotient or product *)
  fround : Q -> Q;
  (* what [urllib.request.urlretrieve] obtains at a link, if anything *)
  remote : string -> option content;
  (* denoiseg.utils *)
  shuffle_train_data : ndarray -> ndarray -> Z -> result (ndarray * ndarray);
  zero_out_train_data : ndarray -> ndarray -> Q -> result (ndarray * ndarray);
  augment_data : ndarray -> ndarray -> result (ndarray * ndarray);
  convert_to_oneHot : ndarray -> result ndarray;
  (* denoiseg.models *)
  DenoiSegConfig : ndarray -> list (string * pyval) -> result config;
  DenoiSeg : config -> string -> string -> result model;
  model_train :
    model -> ndarray -> ndarray -> ndarray * ndarray ->
    result (model * history);
  model_optimize_thresholds : model -> ndarray -> ndarray -> result (Q * Q);
  model_predict_label_masks :
    model -> ndarray -> ndarray -> Q -> result (ndarray * Q);
  model_export_TF :
    model -> list (string * pyval) -> ndarray -> result unit
}.

(** ** What the notebook does, as a log *)

Inductive util_fn : Type :=
| ShuffleTrainData | ZeroOutTrainData | AugmentData | ConvertToOneHot
| MeasurePrecision.

Inductive model_op : Type :=
| Construct | Train | OptimizeThresholds | PredictLabelMasks | ExportTF.

Inductive event : Type :=
| Import (module : string)
| FilterWarnings (action : string)
| IsDir (path : string)
| Mkdir (path : string)
| PathExists (path : string)
| UrlRetrieve (link path : string)
| ExtractAll (zip dir : string)
| NpLoad (path : string)
| NpzGet (path key : string)
| Print (text : string) (args : list pyval)
| UtilCall (f : util_fn)
| ConfigCall (X : ndarray) (kwargs : list (string * pyval))
| ModelCall (op : model_op)
| Plt (f : string).

Record world : Type := {
  fs : gmap string node;
  trace : list event
}.

(** ** The monad: state passing with exceptions

    An exception stops the run and keeps the world as it was when the
    exception was raised: nothing in the notebook catches anything. *)

Definition M (A : Type) : Type := world -> world * result A.

#[global] Instance M_ret : MRet M := fun A a w => (w, Ret a).

#[global] Instance M_bind : MBind M := fun A B f m w =>
  match m w with
  | (w1, Ret a) => f a w1
  | (w1, Raise e) => (w1, Raise e)
  end.

Definition raise {A : Type} (e : exn) : M A := fun w => (w, Raise e).

Definition lift {A : Type} (r : result A) : M A := fun w => (w, r).

Definition emit (e : event) : M unit :=
  fun w => ({| fs := fs w; trace := trace w ++ [e] |}, Ret tt).

Definition get_fs : M (gmap string node) := fun w => (w, Ret (fs w)).

Definition put_fs (f : gmap string node) : M unit :=
  fun w => ({| fs := f; trace := trace w |}, Ret tt).

Definition py_assert (b : bool) : M unit :=
  if b then mret tt else raise AssertionError.

(** A fresh kernel in a working directory [f]: nothing has happened yet. *)
Definition fresh (f : gmap string node) : world := {| fs := f; trace := [] |}.

(** ** Python and numpy primitives *)

Fixpoint assoc {A : Type} (k : string) (l : list (string * A)) : option A :=
  match l with
  | [] => None
  | (k', v) :: l' => if String.eqb k k' then Some v else assoc k l'
  end.

(** [a.shape[0]]: a zero-dimensional array has an empty shape tuple. *)
Definition shape0 (a : ndarray) : result Z :=
  match shape a with
  | s :: _ => Ret (Z.of_N s)
  | [] => Raise IndexError
  end.

Definition shape_tuple (a : ndarray) : pyval :=
  VTuple (map (fun d => VInt (Z.of_N d)) (shape a)).

(** [a.astype(t)] *)
Definition astype (t : dtype) (a : ndarray) : ndarray :=
  {| shape := shape a; elt := t; payload := payload a |}.

(** [a[..., np.newaxis]] *)
Definition newaxis (a : ndarray) : ndarray :=
  {| shape := shape a ++ [1%N]; elt := elt a; payload := payload a |}.

(** [a[i]] for a literal [i >= 0] *)
Definition index_first (a : ndarray) (i : N) : result ndarray :=
  match shape a with
  | s :: rest =>
      if (i <? s)%N
      then Ret {| shape := rest; elt := elt a; payload := payload a |}
      else Raise IndexError
  | [] => Raise IndexError
  end.

(** [a[i, ..., j]] for literals [i, j >= 0]: the first and the last axis
    are two different axes. *)
Definition index_first_last (a : ndarray) (i j : N) : result ndarray :=
  match shape a with
  | s :: rest =>
      match List.last (map Some rest) None with
      | Some l =>
          if ((i <? s) && (j <? l))%N
          then Ret {| shape := removelast rest; elt := elt a;
                      payload := payload a |}
          else Raise IndexError
      | None => Raise IndexError
      end
  | [] => Raise IndexError
  end.

(** [int(x)] of a float truncates towards zero. *)
Definition py_int (q : Q) : Z :=
  if Qle_bool 0 q then Qfloor q else Qceiling q.

(** [np.rint]: round half to even. *)
Definition rint (q : Q) : Z :=
  let f := Qfloor q in
  match Qcompare (q - inject_Z f) (1 # 2) with
  | Lt => f
  | Gt => f + 1
  | Eq => if Z.even f then f else f + 1
  end.

(** [os.path.normpath], as far as the notebook needs it: ['./data'] and
    ['data'] name the same entry. *)
Definition normpath (p : string) : string :=
  match p with
  | String "."%char (String "/"%char rest) => rest
  | _ => p
  end.

Definition os_path_isdir (p : string) : M bool :=
  emit (IsDir p);;
  f ← get_fs;
  mret (match f !! normpath p with Some Dir => true | _ => false end).

Definition os_path_exists (p : string) : M bool :=
  emit (PathExists p);;
  f ← get_fs;
  mret (match f !! normpath p with Some _ => true | None => false end).

Definition os_mkdir (p : string) : M unit :=
  emit (Mkdir p);;
  f ← get_fs;
  match f !! normpath p with
  | Some _ => raise (FileExistsError p)
  | None => put_fs (<[normpath p := Dir]> f)
  end.

(** [zipfile.ZipFile(path, 'r')]: the members of the archive.  An [.npz]
    archive is a zip of one [.npy] file per array. *)
Definition zip_open (p : string) : M (list (string * content)) :=
  f ← get_fs;
  match f !! normpath p with
  | Some (File (Zip ms)) => mret ms
  | Some (File (Npz arrays)) =>
      mret (map (fun a => (a.1 +:+ ".npy", Raw)) arrays)
  | Some (File Raw) => raise (BadZipFile p)
  | Some Dir => raise (IsADirectoryError p)
  | None => raise (FileNotFoundError p)
  end.

Definition write_member (dir : string)
    (f : gmap string node) (m : string * content) : gmap string node :=
  <[dir +:+ "/" +:+ m.1 := File m.2]> f.

(** [zip_ref.extractall(dir)] *)
Definition zip_extractall (zip dir : string)
    (ms : list (string * content)) : M unit :=
  emit (ExtractAll zip dir);;
  f ← get_fs;
  put_fs (foldl (write_member dir) f ms).

(** [np.load(path)] and [archive[key]].  A zip that is not an [.npz]
    archive loads as an archive without arrays: every key is missing. *)
Definition np_load (p : string) : M (list (string * ndarray)) :=
  emit (NpLoad p);;
  f ← get_fs;
  match f !! normpath p with
  | Some (File (Npz arrays)) => mret arrays
  | Some (File (Zip _)) => mret []
  | Some (File Raw) => raise ValueError
  | Some Dir => raise (IsADirectoryError p)
  | None => raise (FileNotFoundError p)
  end.

Definition npz_get (p : string) (arrays : list (string * ndarray))
    (key : string) : M ndarray :=
  emit (NpzGet p key);;
  match assoc key arrays with
  | Some a => mret a
  | None => raise (KeyError key)
  end.

Definition plt (f : string) : M unit := emit (Plt f).

Definition print (text : string) (args : list pyval) : M unit :=
  emit (Print text args).

(** ** The notebook, cell by cell *)

Section Notebook.

Variable E : env.

(** Calls into the framework: logged when made, and whatever they raise
    ends the run. *)
Definition call_util {A : Type} (f : util_fn) (r : result A) : M A :=
  emit (UtilCall f);; lift r.

Definition call_model {A : Type} (op : model_op) (r : result A) : M A :=
  emit (ModelCall op);; lift r.

(** [int / int], [float * float], [np.round(x, 3)] *)
Definition true_div (a b : Q) : result Q :=
  if Qeq_bool b 0 then Raise ZeroDivisionError else Ret (fround E (a / b)).

Definition float_mul (a b : Q) : Q := fround E (a * b).

Definition np_round3 (q : Q) : Q :=
  fround E (inject_Z (rint (float_mul q 1000)) / 1000).

(** Cell 1: imports. *)
Definition cell_imports : M unit :=
  emit (Import "warnings");;
  emit (FilterWarnings "ignore");;
  emit (Import "numpy");;
  emit (Import "matplotlib.pyplot");;
  emit (Import "scipy.ndimage");;
  emit (Import "denoiseg.models");;
  emit (Import "denoiseg.utils.misc_utils");;
  emit (Import "denoiseg.utils.seg_utils");;
  emit (Import "denoiseg.utils.compute_precision_threshold");;
  emit (Import "csbdeep.utils");;
  emit (Import "urllib");;
  emit (Import "os");;
  emit (Import "zipfile").

(** Cell 3, first statement: the data folder. *)
Definition make_data_dir : M unit :=
  d ← os_path_isdir "./data";
  if negb d then os_mkdir "data" else mret tt.

(** Cell 3, the noise-level selector.  [link] is the binding of the
    variable [link] in the kernel: [None] while it is unbound. *)
Definition select_link (noise_level : string) (link : option string)
    : M (option string) :=
  if String.eqb noise_level "n0" then
    mret (Some "https://owncloud.mpi-cbg.de/index.php/s/liMinMlacVYnldB/download")
  else if String.eqb noise_level "n10" then
    mret (Some "https://owncloud.mpi-cbg.de/index.php/s/llTDhwvxgmDdQ3B/download")
  else if String.eqb noise_level "n20" then
    mret (Some "https://owncloud.mpi-cbg.de/index.php/s/s1XEtPnKTvR64aG/download")
  else
    print "This noise level does not exist for this dataset." [];;
    mret link.

(** ["data/Flywing_{}.zip".format(noise_level)] *)
Definition zipPath (noise_level : string) : string :=
  "data/Flywing_" +:+ noise_level +:+ ".zip".

(** [urllib.request.urlretrieve(link, zipPath)]: reading the unbound
    variable is a [NameError] before the call is made. *)
Definition urlretrieve (link : option string) (p : string) : M unit :=
  match link with
  | None => raise (NameError "link")
  | Some l =>
      emit (UrlRetrieve l p);;
      match remote E l with
      | None => raise (URLError l)
      | Some c => f ← get_fs; put_fs (<[normpath p := File c]> f)
      end
  end.

(** Cell 3, the download block. *)
Definition download_block (noise_level : string) (link : option string)
    : M unit :=
  let zp := zipPath noise_level in
  present ← os_path_exists zp;
  if negb present then
    urlretrieve link zp;;
    ms ← zip_open zp;
    zip_extractall zp "data" ms
  else mret tt.

Definition cell_download (noise_level : string) (link : option string)
    : M (option string) :=
  make_data_dir;;
  link' ← select_link noise_level link;
  download_block noise_level link';;
  mret link'.

(** Cell 4: the training and validation arrays. *)
Definition train_path (noise_level : string) : string :=
  "data/Flywing_" +:+ noise_level +:+ "/train/train_data.npz".

Definition cell_load_train (noise_level : string)
    : M (ndarray * ndarray * ndarray * ndarray) :=
  let p := train_path noise_level in
  trainval_data ← np_load p;
  x ← npz_get p trainval_data "X_train";
  let train_images := astype Float32 x in
  train_masks ← npz_get p trainval_data "Y_train";
  x ← npz_get p trainval_data "X_val";
  let val_images := astype Float32 x in
  val_masks ← npz_get p trainval_data "Y_val";
  mret (train_images, train_masks, val_images, val_masks).

(** Cell 5 *)
Definition cell_print_shapes
    (train_images train_masks val_images val_masks : ndarray) : M unit :=
  print "Shape of train_images: {}" [shape_tuple train_images];;
  print "Shape of train_masks:  {}" [shape_tuple train_masks];;
  print "Shape of val_images:   {}" [shape_tuple val_images];;
  print "Shape of val_masks:    {}" [shape_tuple val_masks].

(** Cell 6: the number of annotated training images and its assertion. *)
Definition cell_annotated (number_of_annotated_training_images : Q)
    (train_images : ndarray) : M unit :=
  let n := number_of_annotated_training_images in
  if Qle_bool 0 n then
    total ← lift (shape0 train_images);
    py_assert (Qle_bool n (inject_Z total))
  else py_assert false.

(** Cell 7: shuffling, sparsification, augmentation, one-hot encoding. *)
Definition percentage (n : Q) (train_images : ndarray) : M Q :=
  total ← lift (shape0 train_images);
  r ← lift (true_div n (inject_Z total));
  mret (float_mul r 100).

Definition cell_prepare (number_of_annotated_training_images : Q)
    (train_images train_masks val_images val_masks : ndarray)
    : M (ndarray * ndarray * ndarray * ndarray) :=
  let seed := 1 in
  '(X_shuffled, Y_shuffled) ←
    call_util ShuffleTrainData
      (shuffle_train_data E train_images train_masks seed);
  percentage_of_annotated_training_images ←
    percentage number_of_annotated_training_images train_images;
  py_assert (Qle_bool 0 percentage_of_annotated_training_images
             && Qle_bool percentage_of_annotated_training_images 100);;
  '(X_frac, Y_frac) ←
    call_util ZeroOutTrainData
      (zero_out_train_data E X_shuffled Y_shuffled
         percentage_of_annotated_training_images);
  '(X, Y_train_masks) ← call_util AugmentData (augment_data E X_frac Y_frac);
  let X_val := val_images in
  let Y_val_masks := val_masks in
  let X := newaxis X in
  Y ← call_util ConvertToOneHot (convert_to_oneHot E Y_train_masks);
  let X_val := newaxis X_val in
  Y_val ← call_util ConvertToOneHot (convert_to_oneHot E Y_val_masks);
  print "Shape of X:     {}" [shape_tuple X];;
  print "Shape of Y:     {}" [shape_tuple Y];;
  print "Shape of X_val: {}" [shape_tuple X_val];;
  print "Shape of Y_val: {}" [shape_tuple Y_val];;
  mret (X, Y, X_val, Y_val).

(** Cell 8: one training sample and its three one-hot channels. *)
Definition imshow_channel (a : ndarray) (i j : N) : M unit :=
  lift (index_first_last a i j);; plt "imshow".

Definition cell_show_sample (X Y : ndarray) : M unit :=
  let sample := 0%N in
  plt "figure";;
  plt "subplot";; imshow_channel X sample 0;; plt "axis";; plt "title";;
  plt "subplot";; imshow_channel Y sample 0;; plt "axis";; plt "title";;
  plt "subplot";; imshow_channel Y sample 1;; plt "axis";; plt "title";;
  plt "subplot";; imshow_channel Y sample 2;; plt "axis";; plt "title".

(** Cell 9: batch size and steps per epoch. *)
Definition train_batch_size : Z := 128.

Definition train_steps_per_epoch (X : ndarray) : result Z :=
  match shape0 X with
  | Raise e => Raise e
  | Ret s =>
      match true_div (inject_Z s) (inject_Z train_batch_size) with
      | Raise e => Raise e
      | Ret q => Ret (Z.max 100 (Z.min (py_int q) 400))
      end
  end.

(** Cell 11: the configuration object. *)
Definition config_kwargs (steps : Z) : list (string * pyval) :=
  [ ("unet_kern_size", VInt 3);
    ("n_channel_out", VInt 4);
    ("relative_weights", VList [VFloat 1; VFloat 1; VFloat 5]);
    ("train_steps_per_epoch", VInt steps);
    ("train_epochs", VInt 200);
    ("batch_norm", VBool true);
    ("train_batch_size", VInt 128);
    ("unet_n_first", VInt 32);
    ("unet_n_depth", VInt 4);
    ("denoiseg_alpha", VFloat (1 # 2));
    ("train_tensorboard", VBool false) ].

Definition cell_config (X : ndarray) (steps : Z) : M config :=
  let kwargs := config_kwargs steps in
  emit (ConfigCall X kwargs);;
  lift (DenoiSegConfig E X kwargs).

(** Cell 12: the model.  The name is the literal of the notebook, whatever
    the noise level. *)
Definition cell_model (conf : config) : M model :=
  let model_name := "DenoiSeg_Flywing_n20" in
  let basedir := "models" in
  call_model Construct (DenoiSeg E conf model_name basedir).

(** Cell 13: training mutates the model object; the trained object is
    passed on.  Cell 14 only reads [history.history.keys()]. *)
Definition cell_train (m : model) (X Y X_val Y_val : ndarray)
    : M (model * history) :=
  call_model Train (model_train E m X Y (X_val, Y_val)).

(** Cell 15 *)
Definition cell_plot_history (h : history) : M unit :=
  plt "plot_history".

(** Cell 16: the threshold. *)
Definition cell_threshold (m : model) (val_images val_masks : ndarray)
    : M (Q * Q) :=
  let images := astype Float32 val_images in
  emit (UtilCall MeasurePrecision);;
  '(threshold, val_score) ←
    call_model OptimizeThresholds
      (model_optimize_thresholds E m images val_masks);
  print "The higest score of {} is achieved with threshold = {}."
    [VFloat (np_round3 val_score); VFloat threshold];;
  mret (threshold, val_score).

(** Cell 17: the test arrays. *)
Definition test_path (noise_level : string) : string :=
  "data/Flywing_" +:+ noise_level +:+ "/test/test_data.npz".

Definition cell_load_test (noise_level : string) : M (ndarray * ndarray) :=
  let p := test_path noise_level in
  test_data ← np_load p;
  test_images ← npz_get p test_data "X_test";
  test_masks ← npz_get p test_data "Y_test";
  mret (test_images, test_masks).

(** Cell 18: prediction. *)
Definition cell_predict (m : model) (test_images test_masks : ndarray)
    (threshold : Q) : M (ndarray * Q) :=
  emit (UtilCall MeasurePrecision);;
  '(predicted_images, precision_result) ←
    call_model PredictLabelMasks
      (model_predict_label_masks E m test_images test_masks threshold);
  print "Average precision over all test images with threshold = {} is {}."
    [VFloat threshold; VFloat (np_round3 precision_result)];;
  mret (predicted_images, precision_result).

(** Cell 19: raw image, prediction and ground truth of test image 6. *)
Definition imshow_item (a : ndarray) (i : N) : M unit :=
  lift (index_first a i);; plt "imshow".

Definition cell_show_results (test_images predicted_images test_masks : ndarray)
    : M unit :=
  let sl := 6%N in
  plt "figure";;
  plt "figure";;
  plt "subplot";; imshow_item test_images sl;; plt "title";;
  plt "subplot";; imshow_item predicted_images sl;; plt "title";;
  plt "subplot";; imshow_item test_masks sl;; plt "title";;
  plt "show".

(** Cell 20 *)
Definition cell_summary (number_of_annotated_training_images : Q)
    (noise_level : string) (conf : config) : M unit :=
  print "Number of annotated images used for training:"
    [VFloat number_of_annotated_training_images];;
  print "Noise level:" [VStr noise_level];;
  match assoc "denoiseg_alpha" conf with
  | Some alpha => print "Considered alpha:" [alpha]
  | None => raise (AttributeError "denoiseg_alpha")
  end.

(** Cell 21: export for Fiji. *)
Definition export_kwargs : list (string * pyval) :=
  [ ("name", VStr "DenoiSeg - FlyWing Example");
    ("description",
     VStr "This is the 2D DenoiSeg example trained on FlyWing data in python.");
    ("authors", VList [VStr "Tim-Oliver Buchholz"; VStr "Mangal Prakash";
                       VStr "Alexander Krull"; VStr "Florian Jug"]);
    ("axes", VStr "YX");
    ("patch_shape", VTuple [VInt 128; VInt 128]) ].

Definition cell_export (m : model) (X_val : ndarray) : M unit :=
  test_img ← lift (index_first_last X_val 0 0);
  call_model ExportTF (model_export_TF E m export_kwargs test_img).

(** The cells up to and including the printed shapes: everything that
    runs before the user's number of annotated images is looked at. *)
Definition prelude (noise_level : string)
    : M (ndarray * ndarray * ndarray * ndarray) :=
  cell_imports;;
  cell_download noise_level None;;
  '(train_images, train_masks, val_images, val_masks) ←
    cell_load_train noise_level;
  cell_print_shapes train_images train_masks val_images val_masks;;
  mret (train_images, train_masks, val_images, val_masks).

(** The cells after the assertion of cell 6. *)
Definition rest (noise_level : string)
    (number_of_annotated_training_images : Q)
    (train_images train_masks val_images val_masks : ndarray) : M unit :=
  '(X, Y, X_val, Y_val) ←
    cell_prepare number_of_annotated_training_images
      train_images train_masks val_images val_masks;
  cell_show_sample X Y;;
  steps ← lift (train_steps_per_epoch X);
  conf ← cell_config X steps;
  m ← cell_model conf;
  '(m, h) ← cell_train m X Y X_val Y_val;
  cell_plot_history h;;
  '(threshold, val_score) ← cell_threshold m val_images val_masks;
  '(test_images, test_masks) ← cell_load_test noise_level;
  '(predicted_images, precision_result) ←
    cell_predict m test_images test_masks threshold;
  cell_show_results test_images predicted_images test_masks;;
  cell_summary number_of_annotated_training_images noise_level conf;;
  cell_export m X_val.

(** The whole notebook, run top to bottom in a fresh kernel.  The two
    values a user edits are the noise level (cell 2) and the number of
    annotated training images (cell 6). *)
Definition notebook (noise_level : string)
    (number_of_annotated_training_images : Q) : M unit :=
  '(train_images, train_masks, val_images, val_masks) ← prelude noise_level;
  cell_annotated number_of_annotated_training_images train_images;;
  rest noise_level number_of_annotated_training_images
    train_images train_masks val_images val_masks.

End Notebook.

(** ** A concrete environment

    A stand-in for the framework and the server, used to run the notebook
    on concrete inputs. *)

Module Demo.

(** Rounding to the nearest multiple of [2^-30] (ties upwards). *)
Definition grid_round (q : Q) : Q :=
  Qmake (Qfloor (q * inject_Z (2 ^ 30) + (1 # 2))) (2 ^ 30).

Definition arr (sh : list N) (t : dtype) (id : N) : ndarray :=
  {| shape := sh; elt := t; payload := id |}.

Definition train_npz : content :=
  Npz [ ("X_train", arr [1428; 128; 128]%N Float64 1);
        ("Y_train", arr [1428; 128; 128]%N UInt16 2);
        ("X_val", arr [252; 128; 128]%N Float64 3);
        ("Y_val", arr [252; 128; 128]%N UInt16 4) ].

Definition test_npz : content :=
  Npz [ ("X_test", arr [50; 512; 512]%N Float64 5);
        ("Y_test", arr [50; 512; 512]%N UInt16 6) ].

Definition flywing_zip (noise_level : string) : content :=
  Zip [ ("Flywing_" +:+ noise_level +:+ "/train/train_data.npz", train_npz);
        ("Flywing_" +:+ noise_level +:+ "/test/test_data.npz", test_npz) ].

Definition server (link : string) : option content :=
  if String.eqb link
       "https://owncloud.mpi-cbg.de/index.php/s/liMinMlacVYnldB/download"
  then Some (flywing_zip "n0")
  else if String.eqb link
       "https://owncloud.mpi-cbg.de/index.php/s/llTDhwvxgmDdQ3B/download"
  then Some (flywing_zip "n10")
  else if String.eqb link
       "https://owncloud.mpi-cbg.de/index.php/s/s1XEtPnKTvR64aG/download"
  then Some (flywing_zip "n20")
  else None.

Definition scale0 (k : N) (a : ndarray) : ndarray :=
  match shape a with
  | s :: rest' => arr ((k * s)%N :: rest') (elt a) (payload a)
  | [] => a
  end.

Definition one_hot (a : ndarray) : ndarray :=
  arr (shape a ++ [3%N]) Float32 (payload a).

Definition env : env := {|
  fround := grid_round;
  remote := server;
  shuffle_train_data := fun x y _ => Ret (x, y);
  zero_out_train_data := fun x y _ => Ret (x, y);
  augment_data := fun x y => Ret (scale0 8 x, scale0 8 y);
  convert_to_oneHot := fun y => Ret (one_hot y);
  DenoiSegConfig := fun _ kwargs => Ret kwargs;
  DenoiSeg := fun c name basedir =>
    Ret {| m_conf := c; m_name := name; m_basedir := basedir;
           m_weights := 0 |};
  model_train := fun m _ _ _ =>
    Ret ({| m_conf := m_conf m; m_name := m_name m;
            m_basedir := m_basedir m; m_weights := 1 |},
         [("loss", [1 # 2; 1 # 4]); ("val_loss", [1 # 2; 1 # 3])]);
  model_optimize_thresholds := fun _ _ _ => Ret (1 # 2, 4 # 5);
  model_predict_label_masks := fun _ _ masks t => Ret (masks, 7 # 10);
  model_export_TF := fun _ _ _ => Ret tt
|}.

End Demo.

(** ** Reading the log *)

Inductive step : Type :=
| SImport | SDownload | SLoad | SSparsify | SConfig | SModel | SPlot.

#[global] Instance step_eq_dec : EqDecision step.
Proof. solve_decision. Defined.

#[global] Instance model_op_eq_dec : EqDecision model_op.
Proof. solve_decision. Defined.

(** The step of the notebook an event belongs to.  Prints belong to no
    step.  [measure_precision()] builds the [measure] argument of the two
    model calls that follow it, and is counted with them. *)
Definition step_of (e : event) : option step :=
  match e with
  | Import _ | FilterWarnings _ => Some SImport
  | IsDir _ | Mkdir _ | PathExists _ | UrlRetrieve _ _ | ExtractAll _ _ =>
      Some SDownload
  | NpLoad _ | NpzGet _ _ => Some SLoad
  | UtilCall MeasurePrecision => Some SModel
  | UtilCall _ => Some SSparsify
  | ConfigCall _ _ => Some SConfig
  | ModelCall _ => Some SModel
  | Plt _ => Some SPlot
  | Print _ _ => None
  end.

(** Runs of equal neighbours shrink to one element. *)
Fixpoint compress_from (prev : step) (l : list step) : list step :=
  match l with
  | [] => []
  | b :: l' =>
      if decide (prev = b) then compress_from prev l'
      else b :: compress_from b l'
  end.

Definition compress (l : list step) : list step :=
  match l with
  | [] => []
  | a :: l' => a :: compress_from a l'
  end.

Definition phases (tr : list event) : list step :=
  compress (omap step_of tr).

Definition is_step (s : step) (e : event) : bool :=
  bool_decide (step_of e = Some s).

(** Every [P] event comes before every [Q] event. *)
Fixpoint all_before (P Q : event -> bool) (tr : list event) : bool :=
  match tr with
  | [] => true
  | e :: tr' =>
      if Q e then forallb (fun e' => negb (P e')) tr'
      else all_before P Q tr'
  end.

Definition model_op_of (e : event) : option model_op :=
  match e with
  | ModelCall op => Some op
  | _ => None
  end.

Definition model_ops (tr : list event) : list model_op :=
  omap model_op_of tr.

Definition npz_reads (tr : list event) : list (string * string) :=
  omap (fun e => match e with NpzGet p k => Some (p, k) | _ => None end) tr.

Definition config_calls (tr : list event)
    : list (ndarray * list (string * pyval)) :=
  omap (fun e => match e with ConfigCall X kw => Some (X, kw) | _ => None end)
    tr.

Definition is_transfer (e : event) : bool :=
  match e with
  | UrlRetrieve _ _ | ExtractAll _ _ => true
  | _ => false
  end.

(** What the download cell may log: file-system calls and a print. *)
Definition download_event (e : event) : bool :=
  match step_of e with
  | Some SDownload | None => true
  | Some _ => false
  end.

Definition is_zero_out (e : event) : bool :=
  match e with
  | UtilCall ZeroOutTrainData => true
  | _ => false
  end.

(** ** Floating point

    The notebook divides and multiplies in binary64.  Two properties of
    round-to-nearest are all that is used: it is monotone, and a value
    [m / 128] with [|m| <= 2^53] is a binary64 number, hence is not
    changed. *)

Definition faithful (rnd : Q -> Q) : Prop :=
  (forall x y : Q, (x <= y)%Q -> (rnd x <= rnd y)%Q) /\
  (forall m : Z, Z.abs m <= 2 ^ 53 -> (rnd (m # 128) == m # 128)%Q).

(** ** Relations on the file system *)

(** [f'] differs from [f] only at [data] and below it, and has every path
    that [f] has. *)
Definition grows (f f' : gmap string node) : Prop :=
  (forall p, is_Some (f !! p) -> is_Some (f' !! p)) /\
  (forall p, p <> "data" -> (forall name, p <> "data/" +:+ name) ->
             f' !! p = f !! p).

(** Started on the file system [f], [m] ends, normally or not, on a file
    system related to [f] by [R]. *)
Definition fs_rel (R : relation (gmap string node)) {A : Type}
    (f : gmap string node) (m : M A) : Prop :=
  forall t w' r, m {| fs := f; trace := t |} = (w', r) -> R f (fs w').

(** ** The statements of the specification, as predicates *)

(** The order of section 2 of the specification. *)
Definition specified_order : list step :=
  [SImport; SDownload; SLoad; SSparsify; SConfig; SModel; SPlot].

Definition distinct_model_ops (tr : list event) : nat :=
  length (remove_dups (model_ops tr)).

(** The names of the arrays held by the archive at path [p]. *)
Definition archive_keys (f : gmap string node) (p : string) : list string :=
  match f !! p with
  | Some (File (Npz arrays)) => map fst arrays
  | _ => []
  end.

Definition six_keys : list string :=
  ["X_train"; "Y_train"; "X_val"; "Y_val"; "X_test"; "Y_test"].

(** The two archives together hold the six arrays and nothing else. *)
Definition holds_exactly_six (f : gmap string node) (nl : string) : Prop :=
  (archive_keys f (train_path nl) ++ archive_keys f (test_path nl))%list
    ≡ₚ six_keys.

(** The run ends on the file system it started from. *)
Definition leaves_no_files
    (E : env) (nl : string) (n : Q) (f : gmap string node) : Prop :=
  fs (notebook E nl n (fresh f)).1 = f.

(** ** Concrete runs *)

Definition demo_prelude
    : world * result (ndarray * ndarray * ndarray * ndarray) :=
  prelude Demo.env "n20" (fresh ∅).

Definition demo_download : world * result (option string) :=
  cell_download Demo.env "n20" None (fresh ∅).

Definition demo_run : world * result unit :=
  notebook Demo.env "n20" 5 (fresh ∅).

(** A working directory where the data is already in place and the
    training archive holds one array more. *)
Definition extra_npz : content :=
  Npz [ ("X_train", Demo.arr [1428; 128; 128]%N Float64 1);
        ("Y_train", Demo.arr [1428; 128; 128]%N UInt16 2);
        ("X_val", Demo.arr [252; 128; 128]%N Float64 3);
        ("Y_val", Demo.arr [252; 128; 128]%N UInt16 4);
        ("X_extra", Demo.arr [10; 128; 128]%N Float64 7) ].

Definition extra_fs : gmap string node :=
  list_to_map
    [ ("data", Dir);
      ("data/Flywing_n20.zip", File (Demo.flywing_zip "n20"));
      ("data/Flywing_n20/train/train_data.npz", File extra_npz);
      ("data/Flywing_n20/test/test_data.npz", File Demo.test_npz) ].

Definition extra_run : world * result unit :=
  notebook Demo.env "n20" 5 (fresh extra_fs).

(** ** Further predicates and environments *)


(** [a[i]] exists: [a] has a first axis with more than [i] entries. *)
Definition has_item (a : ndarray) (i : N) : bool :=
  match shape a with
  | s :: _ => (i <? s)%N
  | [] => false
  end.

(** [a[0, ..., j]] exists. *)
Definition has_channel (a : ndarray) (j : N) : bool :=
  match shape a with
  | s :: rest =>
      match List.last (map Some rest) None with
      | Some l => ((0 <? s) && (j <? l))%N
      | None => false
      end
  | [] => false
  end.

(** The environment [E] behind another server. *)
Definition with_server (E : env) (srv : string -> option content) : env := {|
  fround := fround E;
  remote := srv;
  shuffle_train_data := shuffle_train_data E;
  zero_out_train_data := zero_out_train_data E;
  augment_data := augment_data E;
  convert_to_oneHot := convert_to_oneHot E;
  DenoiSegConfig := DenoiSegConfig E;
  DenoiSeg := DenoiSeg E;
  model_train := model_train E;
  model_optimize_thresholds := model_optimize_thresholds E;
  model_predict_label_masks := model_predict_label_masks E;
  model_export_TF := model_export_TF E
|}.

(** The link of cell 3 for noise level ['n20']. *)
Definition n20_link : string :=
  "https://owncloud.mpi-cbg.de/index.php/s/s1XEtPnKTvR64aG/download".

(** ** Inversion of successful runs *)

Section Inversion.

Context {A B : Type}.

Lemma bind_Ret (m : M A) (f : A -> M B) w w' b :
  (m ≫= f) w = (w', Ret b) ->
  exists w1 a, m w = (w1, Ret a) /\ f a w1 = (w', Ret b).
Proof.
  unfold mbind, M_bind. destruct (m w) as [w1 [a|e]]; intros H.
  - exists w1, a. split; [reflexivity | exact H].
  - discriminate H.
Qed.

Lemma bind_Raise (m : M A) (f : A -> M B) w w' e :
  m w = (w', Raise e) -> (m ≫= f) w = (w', Raise e).
Proof. unfold mbind, M_bind. intros ->. reflexivity. Qed.

Lemma bind_run (m : M A) (f : A -> M B) w w1 a :
  m w = (w1, Ret a) -> (m ≫= f) w = f a w1.
Proof. unfold mbind, M_bind. intros ->. reflexivity. Qed.

Lemma mret_Ret (a b : A) w w' :
  (mret a : M A) w = (w', Ret b) -> w' = w /\ b = a.
Proof. unfold mret, M_ret. intros H. inversion H. split; reflexivity. Qed.

Lemma lift_Ret (r : result A) w w' a :
  lift r w = (w', Ret a) -> w' = w /\ r = Ret a.
Proof. unfold lift. intros H. inversion H. split; reflexivity. Qed.

Lemma raise_Ret (e : exn) w w' (a : A) : raise e w = (w', Ret a) -> False.
Proof. unfold raise. intros H. discriminate H. Qed.

End Inversion.

(** The state primitives, on a world given by its two components. *)
Lemma emit_Ret e f t w' u :
  emit e {| fs := f; trace := t |} = (w', Ret u) ->
  w' = {| fs := f; trace := t ++ [e] |}.
Proof. unfold emit. intros H. inversion H. reflexivity. Qed.

Lemma get_fs_Ret f t w' g :
  get_fs {| fs := f; trace := t |} = (w', Ret g) ->
  w' = {| fs := f; trace := t |} /\ g = f.
Proof. unfold get_fs. intros H. inversion H. split; reflexivity. Qed.

Lemma put_fs_Ret g f t w' u :
  put_fs g {| fs := f; trace := t |} = (w', Ret u) ->
  w' = {| fs := g; trace := t |}.
Proof. unfold put_fs. intros H. inversion H. reflexivity. Qed.

Lemma py_assert_Ret b w w' u :
  py_assert b w = (w', Ret u) -> w' = w /\ b = true.
Proof.
  unfold py_assert. destruct b; intros H.
  - apply mret_Ret in H as [-> _]. split; reflexivity.
  - apply raise_Ret in H. destruct H.
Qed.

Create HintDb notebook.

Create HintDb download.

#[global] Hint Unfold
  notebook prelude rest cell_imports cell_load_train cell_print_shapes
  cell_annotated percentage cell_prepare imshow_channel cell_show_sample
  cell_config cell_model cell_train cell_plot_history cell_threshold
  cell_load_test cell_predict imshow_item cell_show_results cell_summary
  cell_export call_util call_model np_load npz_get plt print : notebook.

#[global] Hint Unfold
  cell_download make_data_dir select_link download_block urlretrieve
  os_path_isdir os_path_exists os_mkdir zip_open zip_extractall print
  : download.

(** Take a successful run apart, statement by statement, in program
    order: the world each statement starts from is known by then. *)
Ltac run_inv_with cell H :=
  lazymatch type of H with
  | mbind _ _ _ = (_, Ret _) =>
      let w := fresh "w" in
      let a := fresh "a" in
      let H1 := fresh "Hrun" in
      apply bind_Ret in H as (w & a & H1 & H);
      run_inv_with cell H1; run_inv_with cell H
  | emit _ {| fs := _; trace := _ |} = (_, Ret _) =>
      apply emit_Ret in H as ->
  | get_fs {| fs := _; trace := _ |} = (_, Ret _) =>
      apply get_fs_Ret in H as [-> ->]
  | put_fs _ {| fs := _; trace := _ |} = (_, Ret _) =>
      apply put_fs_Ret in H as ->
  | lift _ _ = (_, Ret _) => apply lift_Ret in H as [-> H]
  | mret _ _ = (_, Ret _) => apply mret_Ret in H as [-> H]; try subst
  | raise _ _ = (_, Ret _) => apply raise_Ret in H; destruct H
  | py_assert _ _ = (_, Ret _) =>
      apply py_assert_Ret in H as [-> H]; try discriminate H
  | (if ?b then _ else _) _ = (_, Ret _) =>
      destruct b eqn:?; run_inv_with cell H
  | (match ?x with _ => _ end) _ = (_, Ret _) =>
      tryif is_var x then destruct x
      else (let E := fresh "E" in
            destruct x eqn:E; try (cbn [assoc] in E; discriminate E));
      run_inv_with cell H
  | _ = (_, Ret _) =>
      first [ progress cbv beta in H; run_inv_with cell H | cell H ]
  | _ => idtac
  end.

Ltac run_inv H := run_inv_with ltac:(fun _ => idtac) H.

(** *** The download cell *)

Lemma cell_download_Ret E nl link f t w' l' :
  cell_download E nl link {| fs := f; trace := t |} = (w', Ret l') ->
  exists dl f',
    w' = {| fs := f'; trace := t ++ IsDir "./data" :: dl |} /\
    Forall (fun e => download_event e = true) dl.
Proof.
  intros H. autounfold with download in H. run_inv H.
  all: eexists _, _; split;
    [ repeat rewrite <- app_assoc; reflexivity
    | repeat constructor ].
Qed.

Ltac download_inv H :=
  lazymatch type of H with
  | cell_download _ _ _ {| fs := _; trace := _ |} = (_, Ret _) =>
      let dl := fresh "dl" in
      let f := fresh "f" in
      let Hdl := fresh "Hdl" in
      let Hcopy := fresh "Hdownload" in
      pose proof H as Hcopy;
      apply cell_download_Ret in H as (dl & f & -> & Hdl)
  | _ => idtac
  end.

(** A successful run of the whole notebook, taken apart. *)
Ltac notebook_inv H :=
  autounfold with notebook in H; unfold fresh in H;
  run_inv_with download_inv H.

(** ** Facts about a faithful rounding *)

Section Rounding.

Variable rnd : Q -> Q.
Hypothesis rnd_faithful : faithful rnd.

Lemma rnd_mono x y : (x <= y)%Q -> (rnd x <= rnd y)%Q.
Proof. apply rnd_faithful. Qed.

Lemma rnd_eq x y : (x == y)%Q -> (rnd x == rnd y)%Q.
Proof.
  intros Hxy. apply Qle_antisym; apply rnd_mono; rewrite Hxy; apply Qle_refl.
Qed.

Lemma rnd_int (z : Z) :
  Z.abs z <= 2 ^ 46 -> (rnd (inject_Z z) == inject_Z z)%Q.
Proof.
  intros Hz.
  assert (Heq : (inject_Z z == (z * 128) # 128)%Q).
  { unfold Qeq, inject_Z. simpl. lia. }
  destruct rnd_faithful as [_ Hex].
  eapply Qeq_trans; [apply rnd_eq, Heq |].
  eapply Qeq_trans; [apply Hex; lia | symmetry; exact Heq].
Qed.

Lemma rnd_between (a b : Z) (x : Q) :
  Z.abs a <= 2 ^ 46 -> Z.abs b <= 2 ^ 46 ->
  (inject_Z a <= x)%Q -> (x <= inject_Z b)%Q ->
  (inject_Z a <= rnd x)%Q /\ (rnd x <= inject_Z b)%Q.
Proof.
  intros Ha Hb Hax Hxb. split.
  - eapply Qle_trans; [| apply rnd_mono, Hax].
    apply Qle_lteq. right. symmetry. apply rnd_int, Ha.
  - eapply Qle_trans; [apply rnd_mono, Hxb |].
    apply Qle_lteq. right. apply rnd_int, Hb.
Qed.

End Rounding.

Lemma Qfloor_quotient (s : Z) : Qfloor (s # 128) = s / 128.
Proof. reflexivity. Qed.

Lemma quotient_128 (s : Z) : (inject_Z s / inject_Z 128 == s # 128)%Q.
Proof.
  unfold Qeq, Qdiv, Qmult, Qinv, inject_Z. simpl. lia.
Qed.

Lemma py_int_nonneg (q : Q) : (0 <= q)%Q -> py_int q = Qfloor q.
Proof.
  intros Hq. unfold py_int.
  destruct (Qle_bool 0 q) eqn:Hb; [reflexivity |].
  apply Qle_bool_iff in Hq. congruence.
Qed.

Module DemoFacts.

Lemma grid_round_mono x y :
  (x <= y)%Q -> (Demo.grid_round x <= Demo.grid_round y)%Q.
Proof.
  intros Hxy. unfold Demo.grid_round.
  assert (Hfl : Qfloor (x * inject_Z (2 ^ 30) + (1 # 2))
                <= Qfloor (y * inject_Z (2 ^ 30) + (1 # 2))).
  { apply Qfloor_resp_le, Qplus_le_l, Qmult_le_compat_r; [exact Hxy |].
    discriminate. }
  unfold Qle. cbn [Qnum Qden].
  apply Z.mul_le_mono_nonneg_r; [lia | exact Hfl].
Qed.

Lemma grid_round_exact (m : Z) :
  (Demo.grid_round (m # 128) == m # 128)%Q.
Proof.
  unfold Demo.grid_round.
  assert (Hfl : Qfloor ((m # 128) * inject_Z (2 ^ 30) + (1 # 2)) = m * 2 ^ 23).
  { rewrite (Qfloor_comp _ ((2 * (m * 2 ^ 23) + 1) # 2)).
    - unfold Qfloor. Z.to_euclidean_division_equations. lia.
    - unfold Qeq, Qplus, Qmult, inject_Z. simpl. lia. }
  rewrite Hfl. unfold Qeq. cbn [Qnum Qden]. lia.
Qed.

Lemma grid_round_faithful : faithful Demo.grid_round.
Proof.
  split.
  - apply grid_round_mono.
  - intros m _. apply grid_round_exact.
Qed.

End DemoFacts.

(** ** The input assertions (cells 6 and 7) *)

Lemma cell_annotated_run n ti total sh w :
  shape ti = total :: sh ->
  cell_annotated n ti w =
    (w, if Qle_bool 0 n && Qle_bool n (inject_Z (Z.of_N total))
        then Ret tt else Raise AssertionError).
Proof.
  intros Hsh. unfold cell_annotated, shape0. rewrite Hsh.
  destruct (Qle_bool 0 n); [| reflexivity].
  unfold mbind, M_bind, lift, py_assert.
  destruct (Qle_bool n (inject_Z (Z.of_N total))); reflexivity.
Qed.

Lemma in_range_bool (n : Q) (total : N) :
  (0 <= n /\ n <= inject_Z (Z.of_N total))%Q <->
  Qle_bool 0 n && Qle_bool n (inject_Z (Z.of_N total)) = true.
Proof.
  rewrite andb_true_iff, !Qle_bool_iff. reflexivity.
Qed.

Lemma download_events_omap {B : Type} (g : event -> option B) dl :
  (forall e, download_event e = true -> g e = None) ->
  Forall (fun e => download_event e = true) dl -> omap g dl = [].
Proof.
  intros Hg Hdl. induction Hdl as [| e dl He _ IH]; [reflexivity |].
  cbn [omap list_omap]. rewrite (Hg e He). exact IH.
Qed.

Lemma download_events_zero_out dl :
  Forall (fun e => download_event e = true) dl ->
  existsb is_zero_out dl = false.
Proof.
  intros Hdl. induction Hdl as [| e dl He _ IH]; [reflexivity |].
  cbn [existsb]. rewrite IH.
  destruct e as [| | | | | | | | | | [] | | |];
    first [reflexivity | discriminate He].
Qed.

Lemma download_events_steps dl :
  Forall (fun e => download_event e = true) dl ->
  exists k, omap step_of dl = replicate k SDownload.
Proof.
  intros Hdl.
  induction Hdl as [| e dl He _ [k IH]]; [exists 0%nat; reflexivity |].
  cbn [omap list_omap]. unfold download_event in He.
  destruct (step_of e) as [[]|]; try discriminate He.
  - exists (S k). cbn [replicate]. f_equal. exact IH.
  - exists k. exact IH.
Qed.

(** C1.  With [total = train_images.shape[0]], the assertion of cell 6
    passes exactly when [0 <= n <= total]; [n = 0] and [n = total] pass;
    and for any other [n] the run of the whole notebook ends in
    [AssertionError] at that cell, with no call of [zero_out_train_data]
    in its log. *)
Theorem annotated_assertion
    (E : env) (noise_level : string) (n : Q) (f : gmap string node)
    (w1 : world) (train_images train_masks val_images val_masks : ndarray)
    (total : N) (sh : list N) :
  prelude E noise_level (fresh f)
    = (w1, Ret (train_images, train_masks, val_images, val_masks)) ->
  shape train_images = total :: sh ->
  ((0 <= n /\ n <= inject_Z (Z.of_N total))%Q <->
     cell_annotated n train_images w1 = (w1, Ret tt)) /\
  cell_annotated 0 train_images w1 = (w1, Ret tt) /\
  cell_annotated (inject_Z (Z.of_N total)) train_images w1 = (w1, Ret tt) /\
  (~ (0 <= n /\ n <= inject_Z (Z.of_N total))%Q ->
     notebook E noise_level n (fresh f) = (w1, Raise AssertionError) /\
     existsb is_zero_out (trace w1) = false).
Proof.
  intros Hpre Hsh.
  assert (Hiff : forall m : Q,
    (0 <= m /\ m <= inject_Z (Z.of_N total))%Q <->
    cell_annotated m train_images w1 = (w1, Ret tt)).
  { intros m. rewrite (cell_annotated_run m _ _ _ w1 Hsh), in_range_bool.
    destruct (Qle_bool 0 m && Qle_bool m (inject_Z (Z.of_N total)));
      split; intros H; first [reflexivity | discriminate H]. }
  split; [apply Hiff |]. split; [| split].
  - apply Hiff. split; [apply Qle_refl |].
    change 0%Q with (inject_Z 0). rewrite <- Zle_Qle. lia.
  - apply Hiff. split; [| apply Qle_refl].
    change 0%Q with (inject_Z 0). rewrite <- Zle_Qle. lia.
  - intros Hout. split.
    + unfold notebook. rewrite (bind_run _ _ _ _ _ Hpre). cbv beta iota.
      apply bind_Raise. rewrite (cell_annotated_run n _ _ _ w1 Hsh).
      rewrite in_range_bool in Hout.
      destruct (Qle_bool 0 n && Qle_bool n (inject_Z (Z.of_N total)));
        [destruct Hout |]; reflexivity.
    + clear Hiff Hout Hsh. notebook_inv Hpre. cbn [trace].
      rewrite !existsb_app. cbn [existsb is_zero_out orb].
      rewrite (download_events_zero_out _ Hdl). reflexivity.
Qed.

(** C8.  Under the precondition of the first assertion, and with at least
    one training image, the percentage of cell 7 is computed without
    error, lies in [0, 100], and the second assertion passes. *)
Theorem percentage_assertion_holds
    (E : env) (n : Q) (train_images : ndarray) (total : N) (sh : list N)
    (w : world) :
  faithful (fround E) ->
  shape train_images = total :: sh ->
  (0 < total)%N ->
  (0 <= n)%Q -> (n <= inject_Z (Z.of_N total))%Q ->
  exists p : Q,
    percentage E n train_images w = (w, Ret p) /\
    (0 <= p)%Q /\ (p <= 100)%Q /\
    py_assert (Qle_bool 0 p && Qle_bool p 100) w = (w, Ret tt).
Proof.
  intros Hrnd Hsh Htot Hn0 Hn1.
  set (t := inject_Z (Z.of_N total)) in *.
  assert (Ht : (0 < t)%Q).
  { unfold t. change 0%Q with (inject_Z 0). rewrite <- Zlt_Qlt. lia. }
  assert (Hquot : (inject_Z 0 <= n / t)%Q /\ (n / t <= inject_Z 1)%Q).
  { split.
    - apply Qle_shift_div_l; [exact Ht |]. rewrite Qmult_0_l. exact Hn0.
    - apply Qle_shift_div_r; [exact Ht |]. rewrite Qmult_1_l. exact Hn1. }
  destruct Hquot as [Hq0 Hq1].
  destruct (rnd_between _ Hrnd 0 1 (n / t)%Q) as [Hr0 Hr1];
    [lia | lia | exact Hq0 | exact Hq1 |].
  set (r := fround E (n / t)) in *.
  destruct (rnd_between _ Hrnd 0 100 (r * 100)%Q) as [Hp0 Hp1];
    [lia | lia | | |].
  { change (inject_Z 0) with (0 * 100)%Q.
    apply Qmult_le_compat_r; [exact Hr0 | discriminate]. }
  { change (inject_Z 100) with (inject_Z 1 * 100)%Q.
    apply Qmult_le_compat_r; [exact Hr1 | discriminate]. }
  exists (fround E (r * 100)).
  assert (Hdiv : true_div E n t = Ret r).
  { unfold true_div. destruct (Qeq_bool t 0) eqn:Hz; [| reflexivity].
    apply Qeq_bool_eq in Hz. rewrite Hz in Ht. discriminate Ht. }
  split; [| split; [exact Hp0 | split; [exact Hp1 |]]].
  - unfold percentage.
    erewrite bind_run; [| unfold lift, shape0; rewrite Hsh; reflexivity].
    erewrite bind_run; [| unfold lift; fold t; rewrite Hdiv; reflexivity].
    reflexivity.
  - apply Qle_bool_iff in Hp0, Hp1.
    change (inject_Z 0) with 0%Q in Hp0.
    change (inject_Z 100) with 100%Q in Hp1.
    rewrite Hp0, Hp1. reflexivity.
Qed.


Lemma annotated_assertion_witness :
  notebook Demo.env "n20" 2000 (fresh ∅)
    = (demo_prelude.1, Raise AssertionError) /\
  existsb is_zero_out (trace demo_prelude.1) = false.
Proof.
  refine (proj2 (proj2 (proj2
    (annotated_assertion Demo.env "n20" 2000 ∅ demo_prelude.1
       (Demo.arr [1428; 128; 128]%N Float32 1)
       (Demo.arr [1428; 128; 128]%N UInt16 2)
       (Demo.arr [252; 128; 128]%N Float32 3)
       (Demo.arr [252; 128; 128]%N UInt16 4)
       1428%N [128; 128]%N _ _))) _).
  - vm_compute. reflexivity.
  - reflexivity.
  - intros [_ H]. vm_compute in H. apply H. reflexivity.
Defined.

Lemma percentage_assertion_holds_witness :
  exists p : Q,
    percentage Demo.env 5 (Demo.arr [1428; 128; 128]%N Float32 1) (fresh ∅)
      = (fresh ∅, Ret p) /\
    (0 <= p)%Q /\ (p <= 100)%Q /\
    py_assert (Qle_bool 0 p && Qle_bool p 100) (fresh ∅) = (fresh ∅, Ret tt).
Proof.
  apply (percentage_assertion_holds Demo.env 5
           (Demo.arr [1428; 128; 128]%N Float32 1) 1428%N [128; 128]%N).
  - exact DemoFacts.grid_round_faithful.
  - reflexivity.
  - reflexivity.
  - discriminate.
  - discriminate.
Defined.

(** ** Steps per epoch (cell 9) *)

Example steps_small :
  train_steps_per_epoch Demo.env (Demo.arr [11424; 128; 128; 1]%N Float32 1)
    = Ret 100.
Proof. vm_compute. reflexivity. Qed.

Example steps_middle :
  train_steps_per_epoch Demo.env (Demo.arr [32800; 128; 128; 1]%N Float32 1)
    = Ret 256.
Proof. vm_compute. reflexivity. Qed.

Example steps_large :
  train_steps_per_epoch Demo.env (Demo.arr [60000; 128; 128; 1]%N Float32 1)
    = Ret 400.
Proof. vm_compute. reflexivity. Qed.

Example steps_no_axis :
  train_steps_per_epoch Demo.env (Demo.arr [] Float32 1) = Raise IndexError.
Proof. reflexivity. Qed.

(** C9.  For a training array [X] with [s] samples, the computed
    [train_steps_per_epoch] exists, equals
    [max(100, min(floor(s / 128), 400))] and lies between 100 and 400; it
    is 100 whenever [floor (s / 128) <= 100], that is whenever
    [s < 12928], and 400 whenever [floor (s / 128) >= 400]. *)
Theorem steps_per_epoch_range
    (E : env) (X : ndarray) (s : N) (sh : list N) :
  faithful (fround E) ->
  shape X = s :: sh ->
  exists k : Z,
    train_steps_per_epoch E X = Ret k /\
    k = Z.max 100 (Z.min (Z.of_N s / 128) 400) /\
    100 <= k <= 400 /\
    (Z.of_N s / 128 <= 100 -> k = 100) /\
    (Z.of_N s < 12928 -> k = 100) /\
    (400 <= Z.of_N s / 128 -> k = 400).
Proof.
  intros Hrnd Hsh.
  set (z := Z.of_N s). assert (Hz : 0 <= z) by (unfold z; lia).
  set (q := fround E (inject_Z z / inject_Z 128)).
  assert (Hq0 : (0 <= q)%Q).
  { eapply Qle_trans; [| apply (rnd_mono _ Hrnd 0)].
    - apply Qle_lteq. right. symmetry. apply (rnd_int _ Hrnd 0). lia.
    - rewrite quotient_128. unfold Qle. cbn [Qnum Qden]. lia. }
  assert (Hexact : z <= 2 ^ 53 -> py_int q = z / 128).
  { intros Hle.
    assert (Hex : (q == z # 128)%Q).
    { unfold q. eapply Qeq_trans; [apply (rnd_eq _ Hrnd), quotient_128 |].
      apply Hrnd. lia. }
    rewrite (py_int_nonneg q Hq0), (Qfloor_comp _ _ Hex), Qfloor_quotient.
    reflexivity. }
  assert (Hlarge : 51200 <= z -> 400 <= py_int q).
  { intros Hge.
    assert (H400 : (inject_Z 400 <= q)%Q).
    { eapply Qle_trans; [| apply (rnd_mono _ Hrnd (inject_Z 400))].
      - apply Qle_lteq. right. symmetry. apply (rnd_int _ Hrnd 400). lia.
      - rewrite quotient_128. unfold Qle. cbn [Qnum Qden inject_Z]. lia. }
    apply Qfloor_resp_le in H400. rewrite Qfloor_Z in H400.
    rewrite (py_int_nonneg q Hq0). exact H400. }
  assert (Hk : Z.max 100 (Z.min (py_int q) 400)
               = Z.max 100 (Z.min (z / 128) 400)).
  { destruct (Z.le_gt_cases z (2 ^ 53)) as [Hle | Hgt].
    - rewrite (Hexact Hle). reflexivity.
    - assert (Hge : 51200 <= z) by lia. specialize (Hlarge Hge).
      assert (400 <= z / 128) by (Z.to_euclidean_division_equations; lia).
      lia. }
  exists (Z.max 100 (Z.min (py_int q) 400)).
  split; [| split; [exact Hk | split; [lia |]]].
  - unfold train_steps_per_epoch, shape0. rewrite Hsh. fold z.
    unfold true_div, train_batch_size.
    change (Qeq_bool (inject_Z 128) 0) with false. reflexivity.
  - rewrite Hk. repeat split; intros H;
      Z.to_euclidean_division_equations; lia.
Qed.

Lemma steps_per_epoch_range_witness :
  exists k : Z,
    train_steps_per_epoch Demo.env (Demo.arr [11424; 128; 128; 1]%N Float32 1)
      = Ret k /\
    k = Z.max 100 (Z.min (11424 / 128) 400) /\
    100 <= k <= 400 /\
    (11424 / 128 <= 100 -> k = 100) /\
    (11424 < 12928 -> k = 100) /\
    (400 <= 11424 / 128 -> k = 400).
Proof.
  apply (steps_per_epoch_range Demo.env
           (Demo.arr [11424; 128; 128; 1]%N Float32 1) 11424%N
           [128; 128; 1]%N).
  - exact DemoFacts.grid_round_faithful.
  - reflexivity.
Defined.

(** ** The noise-level selector (cell 3) *)

(** In a fresh kernel and an empty working directory, an unknown noise
    level prints the message, and the run ends in the download block,
    where the unbound [link] is read. *)
Example unknown_noise_level_run :
  notebook Demo.env "n30" 5 (fresh ∅)
    = ({| fs := {["data" := Dir]};
          trace :=
            [ Import "warnings"; FilterWarnings "ignore"; Import "numpy";
              Import "matplotlib.pyplot"; Import "scipy.ndimage";
              Import "denoiseg.models"; Import "denoiseg.utils.misc_utils";
              Import "denoiseg.utils.seg_utils";
              Import "denoiseg.utils.compute_precision_threshold";
              Import "csbdeep.utils"; Import "urllib"; Import "os";
              Import "zipfile"; IsDir "./data"; Mkdir "data";
              Print "This noise level does not exist for this dataset." [];
              PathExists "data/Flywing_n30.zip" ] |},
       Raise (NameError "link")).
Proof. vm_compute. reflexivity. Qed.

(** C4.  For a noise level other than ['n0'], ['n10'] and ['n20'] the
    selector only prints its message: it raises nothing, binds no link
    (the variable keeps whatever binding it had), touches no file, and the
    cell goes straight on to the download block. *)
Theorem unknown_noise_level
    (E : env) (noise_level : string) (link : option string) (w : world) :
  noise_level <> "n0" -> noise_level <> "n10" -> noise_level <> "n20" ->
  select_link noise_level link w
    = ({| fs := fs w;
          trace := trace w ++
            [Print "This noise level does not exist for this dataset." []] |},
       Ret link) /\
  cell_download E noise_level link w
    = (make_data_dir;;
       print "This noise level does not exist for this dataset." [];;
       download_block E noise_level link;;
       mret link) w.
Proof.
  intros H0 H10 H20.
  apply String.eqb_neq in H0, H10, H20.
  assert (Hsel : forall w0, select_link noise_level link w0
    = ({| fs := fs w0;
          trace := trace w0 ++
            [Print "This noise level does not exist for this dataset." []] |},
       Ret link)).
  { intros w0. unfold select_link. rewrite H0, H10, H20. reflexivity. }
  split; [apply Hsel |].
  unfold cell_download, mbind, M_bind.
  destruct (make_data_dir w) as [w0 [[]|e]]; [| reflexivity].
  rewrite Hsel. reflexivity.
Qed.

Lemma unknown_noise_level_witness :
  select_link "n30" None (fresh ∅)
    = ({| fs := ∅;
          trace :=
            [Print "This noise level does not exist for this dataset." []] |},
       Ret None).
Proof.
  apply (unknown_noise_level Demo.env "n30" None (fresh ∅)); discriminate.
Defined.

(** ** The download block (cell 3) and the file system *)

Lemma normpath_zipPath nl : normpath (zipPath nl) = zipPath nl.
Proof. reflexivity. Qed.

Lemma data_not_member name : "data" <> "data" +:+ "/" +:+ name.
Proof. discriminate. Qed.

Lemma data_not_zipPath nl : zipPath nl <> "data".
Proof. discriminate. Qed.

Lemma extract_lookup_ne dir ms (f : gmap string node) p :
  (forall name, p <> dir +:+ "/" +:+ name) ->
  foldl (write_member dir) f ms !! p = f !! p.
Proof.
  intros Hp. revert f. induction ms as [| m ms IH]; intros f; [reflexivity |].
  cbn [foldl]. rewrite IH. unfold write_member.
  apply lookup_insert_ne. intros Heq. apply (Hp m.1). symmetry. exact Heq.
Qed.

Lemma extract_lookup_is_Some dir ms (f : gmap string node) p :
  is_Some (f !! p) -> is_Some (foldl (write_member dir) f ms !! p).
Proof.
  revert f. induction ms as [| m ms IH]; intros f Hf; [exact Hf |].
  cbn [foldl]. apply IH. unfold write_member.
  apply lookup_insert_is_Some'. right. exact Hf.
Qed.

Lemma isdir_data (f : gmap string node) :
  match f !! "data" with Some Dir => true | _ => false end = true ->
  f !! "data" = Some Dir.
Proof. destruct (f !! "data") as [[]|]; intros H; first [reflexivity | discriminate H]. Qed.

Lemma exists_zip (f : gmap string node) p :
  match f !! p with Some _ => true | None => false end = true ->
  is_Some (f !! p).
Proof. destruct (f !! p); intros H; [eexists; reflexivity | discriminate H]. Qed.

Lemma make_data_dir_Ret f t w' u :
  make_data_dir {| fs := f; trace := t |} = (w', Ret u) ->
  fs w' !! "data" = Some Dir.
Proof.
  intros H. autounfold with download in H.
  change (normpath "./data") with "data" in H.
  change (normpath "data") with "data" in H.
  run_inv H; cbn [fs].
  - apply lookup_insert_eq.
  - apply isdir_data. apply negb_false_iff. assumption.
Qed.

Lemma select_link_fs nl link f t w' r :
  select_link nl link {| fs := f; trace := t |} = (w', r) -> fs w' = f.
Proof.
  unfold select_link.
  destruct (nl =? "n0"); [intros [= <- _]; reflexivity |].
  destruct (nl =? "n10"); [intros [= <- _]; reflexivity |].
  destruct (nl =? "n20"); intros [= <- _]; reflexivity.
Qed.

(** With the archive in place the block only looks for it. *)
Lemma download_block_present E nl link w x :
  fs w !! zipPath nl = Some x ->
  download_block E nl link w
    = ({| fs := fs w; trace := trace w ++ [PathExists (zipPath nl)] |}, Ret tt).
Proof.
  intros Hx. unfold download_block, os_path_exists.
  unfold mbind, M_bind, emit, get_fs, mret, M_ret. cbn [fs trace].
  rewrite normpath_zipPath, Hx. reflexivity.
Qed.

Lemma download_block_Ret E nl link f t w' u :
  download_block E nl link {| fs := f; trace := t |} = (w', Ret u) ->
  f !! "data" = Some Dir ->
  fs w' !! "data" = Some Dir /\ is_Some (fs w' !! zipPath nl).
Proof.
  intros H Hdata. autounfold with download in H.
  rewrite !normpath_zipPath in H. run_inv H; cbn [fs].
  - split.
    + rewrite extract_lookup_ne by apply data_not_member.
      rewrite lookup_insert_ne by apply data_not_zipPath. exact Hdata.
    + apply extract_lookup_is_Some. rewrite lookup_insert_eq. eexists; reflexivity.
  - split.
    + rewrite extract_lookup_ne by apply data_not_member.
      rewrite lookup_insert_ne by apply data_not_zipPath. exact Hdata.
    + apply extract_lookup_is_Some. rewrite lookup_insert_eq. eexists; reflexivity.
  - split; [exact Hdata |]. apply exists_zip, negb_false_iff. assumption.
Qed.

Lemma cell_download_fs E nl link f t w' l' :
  cell_download E nl link {| fs := f; trace := t |} = (w', Ret l') ->
  fs w' !! "data" = Some Dir /\ is_Some (fs w' !! zipPath nl).
Proof.
  intros H. unfold cell_download in H.
  apply bind_Ret in H as (w1 & [] & Hmk & H).
  apply bind_Ret in H as (w2 & l2 & Hsel & H).
  apply bind_Ret in H as (w3 & [] & Hdl & H).
  apply mret_Ret in H as [-> _].
  apply make_data_dir_Ret in Hmk. destruct w1 as [f1 t1]. cbn [fs] in Hmk.
  apply select_link_fs in Hsel. destruct w2 as [f2 t2]. cbn [fs] in Hsel.
  subst f2. apply (download_block_Ret _ _ _ _ _ _ _ Hdl Hmk).
Qed.

Lemma make_data_dir_present f t :
  f !! "data" = Some Dir ->
  make_data_dir {| fs := f; trace := t |}
    = ({| fs := f; trace := t ++ [IsDir "./data"] |}, Ret tt).
Proof.
  intros Hdata. unfold make_data_dir, os_path_isdir.
  unfold mbind, M_bind, emit, get_fs, mret, M_ret. cbn [fs trace].
  change (normpath "./data") with "data". rewrite Hdata. reflexivity.
Qed.

Lemma select_link_run nl link w :
  exists l' t',
    select_link nl link w
      = ({| fs := fs w; trace := trace w ++ t' |}, Ret l') /\
    existsb is_transfer t' = false.
Proof.
  unfold select_link. destruct w as [f t]. cbn [fs trace].
  destruct (nl =? "n0");
    [eexists _, []; rewrite app_nil_r; split; reflexivity |].
  destruct (nl =? "n10");
    [eexists _, []; rewrite app_nil_r; split; reflexivity |].
  destruct (nl =? "n20");
    [eexists _, []; rewrite app_nil_r; split; reflexivity |].
  eexists _, [_]. split; reflexivity.
Qed.

(** C10.  (1) With the archive [data/Flywing_{noise_level}.zip] in place,
    the download block only checks for it: no retrieval, no extraction,
    the file system as it was.  (2) Running the cell again after a
    successful first run succeeds, leaves the file system unchanged and
    neither retrieves nor extracts.  (3) A run of the block that retrieves
    or extracts started without the archive. *)
Theorem download_idempotent (E : env) (noise_level : string) :
  (forall link w x,
     fs w !! zipPath noise_level = Some x ->
     download_block E noise_level link w
       = ({| fs := fs w;
             trace := trace w ++ [PathExists (zipPath noise_level)] |},
          Ret tt)) /\
  (forall link link2 f w1 l1,
     cell_download E noise_level link (fresh f) = (w1, Ret l1) ->
     exists w2 l2,
       cell_download E noise_level link2 (fresh (fs w1)) = (w2, Ret l2) /\
       fs w2 = fs w1 /\
       existsb is_transfer (trace w2) = false) /\
  (forall link f w' r,
     download_block E noise_level link (fresh f) = (w', r) ->
     existsb is_transfer (trace w') = true ->
     f !! zipPath noise_level = None).
Proof.
  split; [| split].
  - intros link w x Hx. exact (download_block_present E _ link w x Hx).
  - intros link link2 f w1 l1 Hrun.
    apply cell_download_fs in Hrun as [Hdata [x Hzip]].
    destruct (select_link_run noise_level link2
                {| fs := fs w1; trace := [] ++ [IsDir "./data"] |})
      as (l2 & t2 & Hsel & Ht2).
    cbn [fs trace] in Hsel.
    eexists _, l2. split; [| split].
    + unfold cell_download, fresh.
      rewrite (bind_run _ _ _ _ _ (make_data_dir_present _ _ Hdata)).
      rewrite (bind_run _ _ _ _ _ Hsel).
      rewrite (bind_run _ _ _ _ _
                 (download_block_present E _ l2
                    {| fs := fs w1; trace := ([] ++ [IsDir "./data"]) ++ t2 |}
                    x Hzip)).
      reflexivity.
    + reflexivity.
    + cbn [trace fs]. rewrite !existsb_app, Ht2. reflexivity.
  - intros link f w' r Hrun Htr.
    destruct (f !! zipPath noise_level) as [x|] eqn:Hx; [| reflexivity].
    rewrite (download_block_present E _ link (fresh f) x Hx) in Hrun.
    injection Hrun as <- _. discriminate Htr.
Qed.


Lemma download_idempotent_witness :
  exists w2 l2,
    cell_download Demo.env "n20" None (fresh (fs demo_download.1))
      = (w2, Ret l2) /\
    fs w2 = fs demo_download.1 /\
    existsb is_transfer (trace w2) = false.
Proof.
  apply (proj1 (proj2 (download_idempotent Demo.env "n20"))
           None None ∅ demo_download.1
           (Some "https://owncloud.mpi-cbg.de/index.php/s/s1XEtPnKTvR64aG/download")).
  vm_compute. reflexivity.
Defined.

(** ** What a run can do to the file system *)


#[global] Instance grows_preorder : PreOrder grows.
Proof.
  split.
  - intros f. split; [intros p Hp; exact Hp | reflexivity].
  - intros f g h [Hfg1 Hfg2] [Hgh1 Hgh2]. split.
    + intros p Hp. apply Hgh1, Hfg1, Hp.
    + intros p Hd Hm. rewrite (Hgh2 p Hd Hm). apply (Hfg2 p Hd Hm).
Qed.

Lemma grows_mkdir (f : gmap string node) : grows f (<["data" := Dir]> f).
Proof.
  split.
  - intros p Hp. apply lookup_insert_is_Some'. right. exact Hp.
  - intros p Hd _. apply lookup_insert_ne. congruence.
Qed.

Lemma grows_retrieve nl c (f : gmap string node) :
  grows f (<[zipPath nl := File c]> f).
Proof.
  split.
  - intros p Hp. apply lookup_insert_is_Some'. right. exact Hp.
  - intros p _ Hm. apply lookup_insert_ne. intros <-.
    apply (Hm ("Flywing_" +:+ nl +:+ ".zip")). reflexivity.
Qed.

Lemma grows_extract ms (f : gmap string node) :
  grows f (foldl (write_member "data") f ms).
Proof.
  split.
  - intros p Hp. apply extract_lookup_is_Some, Hp.
  - intros p _ Hm. apply extract_lookup_ne. exact Hm.
Qed.

Section FsRel.

Variable R : relation (gmap string node).
Context `{!PreOrder R}.

Lemma rel_bind {A B : Type} f (m : M A) (k : A -> M B) :
  fs_rel R f m -> (forall a f1, fs_rel R f1 (k a)) -> fs_rel R f (m ≫= k).
Proof.
  intros Hm Hk t w' r. unfold mbind, M_bind.
  destruct (m {| fs := f; trace := t |}) as [[f1 t1] [a|e]] eqn:Hrun.
  - intros Hrun2. transitivity f1.
    + apply (Hm _ _ _ Hrun).
    + apply (Hk a f1 _ _ _ Hrun2).
  - intros [= <- _]. apply (Hm _ _ _ Hrun).
Qed.

Lemma rel_get {A : Type} f (k : gmap string node -> M A) :
  fs_rel R f (k f) -> fs_rel R f (get_fs ≫= k).
Proof. intros Hk t w' r. unfold mbind, M_bind, get_fs. apply Hk. Qed.

Lemma rel_put f g : R f g -> fs_rel R f (put_fs g).
Proof. intros Hfg t w' r [= <- _]. exact Hfg. Qed.

Lemma rel_emit f e : fs_rel R f (emit e).
Proof. intros t w' r [= <- _]. reflexivity. Qed.

Lemma rel_lift {A : Type} f (x : result A) : fs_rel R f (lift x).
Proof. intros t w' r [= <- _]. reflexivity. Qed.

Lemma rel_ret {A : Type} f (a : A) : fs_rel R f (mret a : M A).
Proof. intros t w' r [= <- _]. reflexivity. Qed.

Lemma rel_raise {A : Type} f e : fs_rel R f (raise e : M A).
Proof. intros t w' r [= <- _]. reflexivity. Qed.

Lemma rel_assert f b : fs_rel R f (py_assert b).
Proof. destruct b; [apply rel_ret | apply rel_raise]. Qed.

End FsRel.

Ltac fs_rel_step :=
  first
    [ apply (rel_get grows)
    | apply (rel_bind grows); [| intros ? ?]
    | apply (rel_emit grows)
    | apply (rel_lift grows)
    | apply (rel_ret grows)
    | apply (rel_raise grows)
    | apply (rel_assert grows)
    | apply (rel_put grows)
    | match goal with
      | |- fs_rel _ _ (match ?x with _ => _ end) => destruct x
      end
    | progress cbv beta ].

Lemma notebook_grows E nl n f : fs_rel grows f (notebook E nl n).
Proof.
  autounfold with notebook download.
  change (normpath "./data") with "data".
  change (normpath "data") with "data".
  rewrite !normpath_zipPath.
  repeat fs_rel_step.
  - apply grows_mkdir.
  - apply grows_retrieve.
  - apply grows_extract.
Qed.

(** ** Logs of the download cell carry nothing else *)

Lemma download_no_model_ops dl :
  Forall (fun e => download_event e = true) dl -> model_ops dl = [].
Proof.
  apply download_events_omap.
  intros [| | | | | | | | | | [] | | |] He;
    first [reflexivity | discriminate He].
Qed.

Lemma download_no_npz_reads dl :
  Forall (fun e => download_event e = true) dl -> npz_reads dl = [].
Proof.
  apply download_events_omap.
  intros [| | | | | | | | | | [] | | |] He;
    first [reflexivity | discriminate He].
Qed.

Lemma download_no_config_calls dl :
  Forall (fun e => download_event e = true) dl -> config_calls dl = [].
Proof.
  apply download_events_omap.
  intros [| | | | | | | | | | [] | | |] He;
    first [reflexivity | discriminate He].
Qed.

Lemma compress_from_replicate s k l :
  compress_from s (replicate k s ++ l) = compress_from s l.
Proof.
  induction k as [| k IH]; [reflexivity |].
  cbn [replicate app compress_from].
  destruct (decide (s = s)) as [_ | Hne]; [exact IH | destruct Hne; reflexivity].
Qed.

Lemma compress_from_download (dl post : list event) :
  Forall (fun e => download_event e = true) dl ->
  compress_from SDownload (omap step_of (dl ++ post)%list)
  = compress_from SDownload (omap step_of post).
Proof.
  intros Hdl. rewrite omap_app.
  destruct (download_events_steps _ Hdl) as [k ->].
  apply compress_from_replicate.
Qed.

(** After [notebook_inv]: the log as one list, the download cell's part
    ([dl]) in the middle of it. *)
Ltac flatten_trace :=
  cbn [trace fs]; rewrite <- !app_assoc; cbn [app].


Lemma demo_run_completes : demo_run.2 = Ret tt.
Proof. vm_compute. reflexivity. Qed.

Lemma demo_run_eq : notebook Demo.env "n20" 5 (fresh ∅) = (demo_run.1, Ret tt).
Proof. vm_compute. reflexivity. Defined.

(** ** Order of the steps *)


(** C2, as stated, fails on the demonstration run: the phases of its log
    are not the seven specified ones, the sample plot precedes the
    construction of the configuration, and plots precede model calls. *)
Lemma step_order_counterexample :
  demo_run.2 = Ret tt /\
  phases (trace demo_run.1) <> specified_order /\
  all_before (is_step SConfig) (is_step SPlot) (trace demo_run.1) = false /\
  all_before (is_step SModel) (is_step SPlot) (trace demo_run.1) = false.
Proof.
  split; [exact demo_run_completes |].
  split; [| split]; vm_compute; [discriminate | reflexivity | reflexivity].
Qed.

(** C2, amended.  Every completed run goes through these phases, in this
    order: imports, download, loading of the training arrays,
    sparsification and augmentation, the sample plot, construction of the
    configuration, model construction and training, the history plot,
    threshold optimisation, loading of the test arrays, prediction, the
    result plots, and the export. *)
Theorem step_order
    (E : env) (noise_level : string) (n : Q) (f : gmap string node)
    (w' : world) :
  notebook E noise_level n (fresh f) = (w', Ret tt) ->
  phases (trace w')
    = [SImport; SDownload; SLoad; SSparsify; SPlot; SConfig; SModel; SPlot;
       SModel; SLoad; SModel; SPlot; SModel].
Proof.
  intros H. notebook_inv H. flatten_trace. clear - Hdl.
  unfold phases. cbn [omap list_omap step_of]. simpl.
  rewrite (compress_from_download _ _ Hdl). reflexivity.
Qed.

Lemma step_order_witness :
  phases (trace demo_run.1)
    = [SImport; SDownload; SLoad; SSparsify; SPlot; SConfig; SModel; SPlot;
       SModel; SLoad; SModel; SPlot; SModel].
Proof.
  apply (step_order Demo.env "n20" 5 ∅ demo_run.1). exact demo_run_eq.
Defined.

(** ** Calls on the model object *)


(** C3, as stated, fails on the demonstration run: the distinct
    operations on the model number five, not four. *)
Lemma model_calls_counterexample :
  demo_run.2 = Ret tt /\ distinct_model_ops (trace demo_run.1) <> 4%nat.
Proof.
  split; [exact demo_run_completes |]. vm_compute. discriminate.
Qed.

(** C3, amended.  Every completed run invokes exactly five operations on
    the model, each once and in this order: construct, train, optimise
    thresholds, predict label masks, export. *)
Theorem model_calls
    (E : env) (noise_level : string) (n : Q) (f : gmap string node)
    (w' : world) :
  notebook E noise_level n (fresh f) = (w', Ret tt) ->
  model_ops (trace w')
    = [Construct; Train; OptimizeThresholds; PredictLabelMasks; ExportTF] /\
  distinct_model_ops (trace w') = 5%nat.
Proof.
  intros H.
  assert (Hops : model_ops (trace w')
    = [Construct; Train; OptimizeThresholds; PredictLabelMasks; ExportTF]).
  { notebook_inv H. flatten_trace.
    pose proof (download_no_model_ops _ Hdl) as Hno. clear - Hno.
    unfold model_ops in *. cbn [omap list_omap model_op_of].
    rewrite omap_app, Hno. reflexivity. }
  split; [exact Hops |]. unfold distinct_model_ops. rewrite Hops.
  reflexivity.
Qed.

Lemma model_calls_witness :
  model_ops (trace demo_run.1)
    = [Construct; Train; OptimizeThresholds; PredictLabelMasks; ExportTF] /\
  distinct_model_ops (trace demo_run.1) = 5%nat.
Proof.
  apply (model_calls Demo.env "n20" 5 ∅ demo_run.1). exact demo_run_eq.
Defined.

(** ** The dataset archives *)

Lemma normpath_train_path nl : normpath (train_path nl) = train_path nl.
Proof. reflexivity. Qed.

Lemma normpath_test_path nl : normpath (test_path nl) = test_path nl.
Proof. reflexivity. Qed.


(** C5, as stated, fails: the notebook runs to completion on archives
    that hold seven arrays. *)
Lemma archive_keys_counterexample :
  extra_run.2 = Ret tt /\ ~ holds_exactly_six (fs extra_run.1) "n20".
Proof.
  split; [vm_compute; reflexivity |].
  intros Hperm. apply Permutation_length in Hperm.
  vm_compute in Hperm. discriminate Hperm.
Qed.

(** C5, amended.  A completed run reads exactly six arrays, [X_train],
    [Y_train], [X_val], [Y_val] from the training archive and [X_test],
    [Y_test] from the test archive, in this order, and both archives are
    on disk and hold at least these arrays.  The load cell hands on
    [X_train] and [X_val] converted to float32, and the two mask arrays
    as they are. *)
Theorem archive_reads (E : env) (noise_level : string) :
  (forall n f w',
     notebook E noise_level n (fresh f) = (w', Ret tt) ->
     npz_reads (trace w')
       = [ (train_path noise_level, "X_train");
           (train_path noise_level, "Y_train");
           (train_path noise_level, "X_val");
           (train_path noise_level, "Y_val");
           (test_path noise_level, "X_test");
           (test_path noise_level, "Y_test") ] /\
     exists train_arrays test_arrays,
       fs w' !! train_path noise_level = Some (File (Npz train_arrays)) /\
       fs w' !! test_path noise_level = Some (File (Npz test_arrays)) /\
       Forall (fun k => is_Some (assoc k train_arrays))
         ["X_train"; "Y_train"; "X_val"; "Y_val"] /\
       Forall (fun k => is_Some (assoc k test_arrays))
         ["X_test"; "Y_test"]) /\
  (forall w w1 train_images train_masks val_images val_masks,
     cell_load_train noise_level w
       = (w1, Ret (train_images, train_masks, val_images, val_masks)) ->
     exists arrays x_train x_val,
       fs w !! train_path noise_level = Some (File (Npz arrays)) /\
       assoc "X_train" arrays = Some x_train /\
       assoc "Y_train" arrays = Some train_masks /\
       assoc "X_val" arrays = Some x_val /\
       assoc "Y_val" arrays = Some val_masks /\
       train_images = astype Float32 x_train /\
       val_images = astype Float32 x_val /\
       elt train_images = Float32 /\ elt val_images = Float32).
Proof.
  split.
  - intros n f w' H. notebook_inv H. flatten_trace.
    rewrite normpath_train_path in *. rewrite normpath_test_path in *.
    split.
    + pose proof (download_no_npz_reads _ Hdl) as Hno. clear - Hno.
      unfold npz_reads in *. cbn [omap list_omap].
      rewrite omap_app, Hno. reflexivity.
    + eexists _, _. split; [eassumption |]. split; [eassumption |].
      split; repeat constructor; eexists; eassumption.
  - intros [f t] w1 ti tm vi vm H.
    autounfold with notebook in H. run_inv H.
    rewrite normpath_train_path in *.
    injection H as -> -> -> ->.
    eexists _, _, _. cbn [fs].
    repeat (split; [first [eassumption | reflexivity] |]). reflexivity.
Qed.

Lemma archive_reads_witness :
  npz_reads (trace demo_run.1)
    = [ (train_path "n20", "X_train"); (train_path "n20", "Y_train");
        (train_path "n20", "X_val"); (train_path "n20", "Y_val");
        (test_path "n20", "X_test"); (test_path "n20", "Y_test") ].
Proof.
  apply (proj1 (archive_reads Demo.env "n20") 5%Q ∅ demo_run.1).
  exact demo_run_eq.
Defined.

(** ** The configuration object *)

(** C6.  A completed run constructs the configuration once, from the
    training array [X] and exactly these eleven keyword options, with the
    steps per epoch computed in cell 9 from [X]. *)
Theorem config_options
    (E : env) (noise_level : string) (n : Q) (f : gmap string node)
    (w' : world) :
  notebook E noise_level n (fresh f) = (w', Ret tt) ->
  exists (X : ndarray) (steps : Z),
    train_steps_per_epoch E X = Ret steps /\
    config_calls (trace w')
      = [ (X,
           [ ("unet_kern_size", VInt 3);
             ("n_channel_out", VInt 4);
             ("relative_weights", VList [VFloat 1; VFloat 1; VFloat 5]);
             ("train_steps_per_epoch", VInt steps);
             ("train_epochs", VInt 200);
             ("batch_norm", VBool true);
             ("train_batch_size", VInt 128);
             ("unet_n_first", VInt 32);
             ("unet_n_depth", VInt 4);
             ("denoiseg_alpha", VFloat (1 # 2));
             ("train_tensorboard", VBool false) ]) ].
Proof.
  intros H. notebook_inv H. flatten_trace.
  eexists _, _. split; [eassumption |].
  pose proof (download_no_config_calls _ Hdl) as Hno. clear - Hno.
  unfold config_calls in *. cbn [omap list_omap].
  rewrite omap_app, Hno. reflexivity.
Qed.

Lemma config_options_witness :
  exists (X : ndarray) (steps : Z),
    train_steps_per_epoch Demo.env X = Ret steps /\
    config_calls (trace demo_run.1)
      = [ (X,
           [ ("unet_kern_size", VInt 3);
             ("n_channel_out", VInt 4);
             ("relative_weights", VList [VFloat 1; VFloat 1; VFloat 5]);
             ("train_steps_per_epoch", VInt steps);
             ("train_epochs", VInt 200);
             ("batch_norm", VBool true);
             ("train_batch_size", VInt 128);
             ("unet_n_first", VInt 32);
             ("unet_n_depth", VInt 4);
             ("denoiseg_alpha", VFloat (1 # 2));
             ("train_tensorboard", VBool false) ]) ].
Proof.
  apply (config_options Demo.env "n20" 5%Q ∅ demo_run.1). exact demo_run_eq.
Defined.

(** ** Files left on disk *)


(** C7, as stated, fails: started in an empty working directory, the
    demonstration run leaves the downloaded archive on disk. *)
Lemma no_files_counterexample :
  demo_run.2 = Ret tt /\ ~ leaves_no_files Demo.env "n20" 5 ∅.
Proof.
  split; [exact demo_run_completes |].
  unfold leaves_no_files. intros Heq.
  apply (f_equal (fun m : gmap string node => m !! "data/Flywing_n20.zip")) in Heq.
  vm_compute in Heq. discriminate Heq.
Qed.

(** C7, amended.  Whatever way a run ends, every path that was on disk
    is still there and nothing outside [data] has changed; after a
    completed run the folder [data] and the downloaded archive are on
    disk. *)
Theorem files_on_disk
    (E : env) (noise_level : string) (n : Q) (f : gmap string node)
    (w' : world) (r : result unit) :
  notebook E noise_level n (fresh f) = (w', r) ->
  (forall p, is_Some (f !! p) -> is_Some (fs w' !! p)) /\
  (forall p, p <> "data" -> (forall name, p <> "data/" +:+ name) ->
     fs w' !! p = f !! p) /\
  (r = Ret tt ->
     fs w' !! "data" = Some Dir /\
     is_Some (fs w' !! zipPath noise_level)).
Proof.
  intros H.
  destruct (notebook_grows E noise_level n f [] w' r H) as [Hkeep Hout].
  split; [exact Hkeep |]. split; [exact Hout |].
  intros ->. clear Hkeep Hout. notebook_inv H. cbn [fs].
  apply cell_download_fs in Hdownload. exact Hdownload.
Qed.

Lemma files_on_disk_witness :
  fs demo_run.1 !! "data" = Some Dir /\
  is_Some (fs demo_run.1 !! zipPath "n20").
Proof.
  apply (files_on_disk Demo.env "n20" 5%Q ∅ demo_run.1 (Ret tt) demo_run_eq).
  reflexivity.
Defined.

(** * Further properties of the notebook *)

(** ** Runs that end in the download cell or at the first load *)

Lemma cell_imports_run f t :
  exists t',
    cell_imports {| fs := f; trace := t |}
      = ({| fs := f; trace := (t ++ t')%list |}, Ret tt) /\
    existsb is_transfer t' = false.
Proof.
  eexists. split.
  - unfold cell_imports, mbind, M_bind, emit. cbn [fs trace].
    rewrite <- !app_assoc. reflexivity.
  - reflexivity.
Qed.

Lemma make_data_dir_absent (f : gmap string node) t :
  f !! "data" = None ->
  make_data_dir {| fs := f; trace := t |}
    = ({| fs := <["data" := Dir]> f;
          trace := (t ++ [IsDir "./data"; Mkdir "data"])%list |}, Ret tt).
Proof.
  intros Hdata. unfold make_data_dir, os_path_isdir, os_mkdir.
  unfold mbind, M_bind, emit, get_fs, put_fs, mret, M_ret. cbn [fs trace].
  change (normpath "./data") with "data".
  change (normpath "data") with "data". rewrite Hdata. cbn [negb fs trace].
  rewrite Hdata, <- app_assoc. reflexivity.
Qed.

Lemma make_data_dir_file (f : gmap string node) t c :
  f !! "data" = Some (File c) ->
  make_data_dir {| fs := f; trace := t |}
    = ({| fs := f; trace := (t ++ [IsDir "./data"; Mkdir "data"])%list |},
       Raise (FileExistsError "data")).
Proof.
  intros Hdata. unfold make_data_dir, os_path_isdir, os_mkdir.
  unfold mbind, M_bind, emit, get_fs, put_fs, mret, M_ret, raise.
  cbn [fs trace].
  change (normpath "./data") with "data".
  change (normpath "data") with "data". rewrite Hdata. cbn [negb fs trace].
  rewrite Hdata, <- app_assoc. reflexivity.
Qed.

Lemma select_link_unknown nl link f t :
  nl <> "n0" -> nl <> "n10" -> nl <> "n20" ->
  select_link nl link {| fs := f; trace := t |}
    = ({| fs := f;
          trace := (t ++
            [Print "This noise level does not exist for this dataset." []])%list |},
       Ret link).
Proof.
  intros H0 H10 H20. apply String.eqb_neq in H0, H10, H20.
  unfold select_link. rewrite H0, H10, H20. reflexivity.
Qed.

Lemma download_block_unbound E nl (f : gmap string node) t :
  f !! zipPath nl = None ->
  download_block E nl None {| fs := f; trace := t |}
    = ({| fs := f; trace := (t ++ [PathExists (zipPath nl)])%list |},
       Raise (NameError "link")).
Proof.
  intros Hzip. unfold download_block, os_path_exists, urlretrieve.
  unfold mbind, M_bind, emit, get_fs, mret, M_ret, raise. cbn [fs trace].
  rewrite normpath_zipPath, Hzip. reflexivity.
Qed.

(** X1.  In a fresh kernel, with a noise level other than ['n0'],
    ['n10'], ['n20'] and no archive on disk, the run prints the message
    and then ends in [NameError] for [link] in the download block, before
    anything is retrieved or extracted; all it has done to the disk is to
    make the folder [data]. *)
Theorem unknown_noise_level_ends_in_name_error
    (E : env) (noise_level : string) (n : Q) (f : gmap string node) :
  noise_level <> "n0" -> noise_level <> "n10" -> noise_level <> "n20" ->
  f !! zipPath noise_level = None ->
  f !! "data" = None \/ f !! "data" = Some Dir ->
  exists w',
    notebook E noise_level n (fresh f) = (w', Raise (NameError "link")) /\
    fs w' = <["data" := Dir]> f /\
    In (Print "This noise level does not exist for this dataset." [])
       (trace w') /\
    existsb is_transfer (trace w') = false.
Proof.
  intros H0 H10 H20 Hzip Hdata.
  destruct (cell_imports_run f []) as (ti & Himp & Hti).
  assert (Hmk : exists tm,
    make_data_dir {| fs := f; trace := ([] ++ ti)%list |}
      = ({| fs := <["data" := Dir]> f; trace := (([] ++ ti) ++ tm)%list |},
         Ret tt) /\
    existsb is_transfer tm = false).
  { destruct Hdata as [Hnone | Hdir].
    - eexists. split; [apply make_data_dir_absent, Hnone | reflexivity].
    - eexists. rewrite (insert_id f "data" Dir Hdir).
      split; [apply make_data_dir_present, Hdir | reflexivity]. }
  destruct Hmk as (tm & Hmk & Htm).
  eexists. split; [| split; [| split]].
  - unfold notebook. apply bind_Raise. unfold prelude, fresh.
    rewrite (bind_run _ _ _ _ _ Himp). apply bind_Raise.
    unfold cell_download.
    rewrite (bind_run _ _ _ _ _ Hmk).
    rewrite (bind_run _ _ _ _ _
               (select_link_unknown _ None _ _ H0 H10 H20)).
    apply bind_Raise. apply download_block_unbound.
    rewrite lookup_insert_ne by (symmetry; apply data_not_zipPath).
    exact Hzip.
  - reflexivity.
  - cbn [trace]. rewrite !in_app_iff. left. right. left. reflexivity.
  - cbn [trace]. rewrite !existsb_app, Hti, Htm. reflexivity.
Qed.

Lemma unknown_noise_level_ends_in_name_error_witness :
  exists w',
    notebook Demo.env "n30" 5 (fresh ∅) = (w', Raise (NameError "link")) /\
    fs w' = <["data" := Dir]> ∅ /\
    In (Print "This noise level does not exist for this dataset." [])
       (trace w') /\
    existsb is_transfer (trace w') = false.
Proof.
  apply (unknown_noise_level_ends_in_name_error Demo.env "n30" 5%Q ∅).
  - discriminate.
  - discriminate.
  - discriminate.
  - reflexivity.
  - left. reflexivity.
Defined.




(** ** Downloading and unpacking *)

Lemma append_inj_r (s a b : string) : s +:+ a = s +:+ b -> a = b.
Proof.
  induction s as [| ch s IH]; cbn [String.append]; intros H; [exact H |].
  injection H as H. apply IH, H.
Qed.




Lemma os_path_exists_absent p (f : gmap string node) t :
  f !! normpath p = None ->
  os_path_exists p {| fs := f; trace := t |}
  = ({| fs := f; trace := (t ++ [PathExists p])%list |}, Ret false).
Proof.
  intros Hp. unfold os_path_exists, mbind, M_bind, emit, get_fs, mret, M_ret.
  cbn [fs trace]. rewrite Hp. reflexivity.
Qed.

Lemma urlretrieve_fetch E l p (f : gmap string node) t c :
  remote E l = Some c ->
  urlretrieve E (Some l) p {| fs := f; trace := t |}
  = ({| fs := <[normpath p := File c]> f;
        trace := (t ++ [UrlRetrieve l p])%list |}, Ret tt).
Proof.
  intros Hrem. unfold urlretrieve, mbind, M_bind, emit, get_fs, put_fs.
  cbn [fs trace]. rewrite Hrem. reflexivity.
Qed.

Lemma urlretrieve_fail E l p (f : gmap string node) t :
  remote E l = None ->
  urlretrieve E (Some l) p {| fs := f; trace := t |}
  = ({| fs := f; trace := (t ++ [UrlRetrieve l p])%list |},
     Raise (URLError l)).
Proof.
  intros Hrem. unfold urlretrieve, mbind, M_bind, emit, raise.
  cbn [fs trace]. rewrite Hrem. reflexivity.
Qed.

(** With the archive absent, the block retrieves it and goes on to
    unpack what it got. *)
Lemma download_block_fetch E nl l (f : gmap string node) t c :
  f !! zipPath nl = None ->
  remote E l = Some c ->
  download_block E nl (Some l) {| fs := f; trace := t |}
  = (zip_open (zipPath nl) ≫= zip_extractall (zipPath nl) "data")
      {| fs := <[zipPath nl := File c]> f;
         trace := ((t ++ [PathExists (zipPath nl)])
                     ++ [UrlRetrieve l (zipPath nl)])%list |}.
Proof.
  intros Hzip Hrem. unfold download_block.
  rewrite (bind_run _ _ _ _ _
             (os_path_exists_absent (zipPath nl) f t Hzip)).
  cbn [negb].
  rewrite (bind_run _ _ _ _ _ (urlretrieve_fetch E l _ _ _ c Hrem)).
  rewrite normpath_zipPath. reflexivity.
Qed.

Lemma download_block_offline E nl l (f : gmap string node) t :
  f !! zipPath nl = None ->
  remote E l = None ->
  download_block E nl (Some l) {| fs := f; trace := t |}
  = ({| fs := f;
        trace := ((t ++ [PathExists (zipPath nl)])
                    ++ [UrlRetrieve l (zipPath nl)])%list |},
     Raise (URLError l)).
Proof.
  intros Hzip Hrem. unfold download_block.
  rewrite (bind_run _ _ _ _ _
             (os_path_exists_absent (zipPath nl) f t Hzip)).
  cbn [negb]. apply bind_Raise. apply urlretrieve_fail, Hrem.
Qed.

Lemma unpack_raw nl (f : gmap string node) t :
  f !! zipPath nl = Some (File Raw) ->
  (zip_open (zipPath nl) ≫= zip_extractall (zipPath nl) "data")
    {| fs := f; trace := t |}
  = ({| fs := f; trace := t |}, Raise (BadZipFile (zipPath nl))).
Proof.
  intros Hzip. apply bind_Raise.
  unfold zip_open, mbind, M_bind, get_fs, raise. cbn [fs trace].
  rewrite normpath_zipPath, Hzip. reflexivity.
Qed.


(** The download cell, once the data folder is there. *)
Lemma cell_download_enter E nl link (f : gmap string node) t :
  f !! "data" = None \/ f !! "data" = Some Dir ->
  exists tm,
    cell_download E nl link {| fs := f; trace := t |}
    = (select_link nl link ≫= fun l' =>
         download_block E nl l';; mret l')
        {| fs := <["data" := Dir]> f; trace := (t ++ tm)%list |} /\
    existsb is_transfer tm = false.
Proof.
  intros [Hnone | Hdir].
  - eexists. split.
    + unfold cell_download.
      rewrite (bind_run _ _ _ _ _ (make_data_dir_absent f t Hnone)).
      reflexivity.
    + reflexivity.
  - eexists. split.
    + unfold cell_download.
      rewrite (bind_run _ _ _ _ _ (make_data_dir_present f t Hdir)).
      rewrite (insert_id f "data" Dir Hdir). reflexivity.
    + reflexivity.
Qed.

(** A failure of the download cell is the failure of the run. *)
Lemma notebook_download_raise E nl n (f : gmap string node) :
  exists ti,
    existsb is_transfer ti = false /\
    forall w' e,
      cell_download E nl None {| fs := f; trace := ti |} = (w', Raise e) ->
      notebook E nl n (fresh f) = (w', Raise e).
Proof.
  destruct (cell_imports_run f []) as (ti & Himp & Hti).
  exists ([] ++ ti)%list. split; [exact Hti |].
  intros w' e Hdl. unfold notebook. apply bind_Raise. unfold prelude, fresh.
  rewrite (bind_run _ _ _ _ _ Himp). apply bind_Raise. exact Hdl.
Qed.

(** X4.  When the server cannot be reached, the run ends in [URLError]
    and leaves no archive behind (only the folder [data]), so running the
    notebook again retrieves again. *)
Theorem failed_download_is_retried
    (E : env) (noise_level : string) (n : Q) (f : gmap string node)
    (l : string) :
  (forall w, select_link noise_level None w = (w, Ret (Some l))) ->
  remote E l = None ->
  f !! zipPath noise_level = None ->
  f !! "data" = None \/ f !! "data" = Some Dir ->
  exists w' w'',
    notebook E noise_level n (fresh f) = (w', Raise (URLError l)) /\
    fs w' = <["data" := Dir]> f /\
    fs w' !! zipPath noise_level = None /\
    notebook E noise_level n (fresh (fs w')) = (w'', Raise (URLError l)) /\
    In (UrlRetrieve l (zipPath noise_level)) (trace w'').
Proof.
  intros Hsel Hrem.
  assert (Hone : forall g : gmap string node,
    g !! zipPath noise_level = None ->
    g !! "data" = None \/ g !! "data" = Some Dir ->
    exists w',
      notebook E noise_level n (fresh g) = (w', Raise (URLError l)) /\
      fs w' = <["data" := Dir]> g /\
      In (UrlRetrieve l (zipPath noise_level)) (trace w')).
  { intros g Hzip Hdata.
    destruct (notebook_download_raise E noise_level n g) as (ti & _ & Hnb).
    destruct (cell_download_enter E noise_level None g ti Hdata)
      as (tm & Hcell & _).
    eexists. split; [| split].
    - apply Hnb. rewrite Hcell. rewrite (bind_run _ _ _ _ _ (Hsel _)).
      apply bind_Raise. apply download_block_offline; [| exact Hrem].
      rewrite lookup_insert_ne by (symmetry; apply data_not_zipPath).
      exact Hzip.
    - reflexivity.
    - cbn [trace]. rewrite !in_app_iff. right. left. reflexivity. }
  intros Hzip Hdata.
  destruct (Hone f Hzip Hdata) as (w' & Hrun & Hfs & _).
  assert (Hzip' : fs w' !! zipPath noise_level = None).
  { rewrite Hfs, lookup_insert_ne by (symmetry; apply data_not_zipPath).
    exact Hzip. }
  assert (Hdata' : fs w' !! "data" = None \/ fs w' !! "data" = Some Dir).
  { right. rewrite Hfs. apply lookup_insert_eq. }
  destruct (Hone (fs w') Hzip' Hdata') as (w'' & Hrun2 & _ & Hin).
  exists w', w''. repeat split; assumption.
Qed.




Lemma failed_download_is_retried_witness :
  exists w' w'',
    notebook (with_server Demo.env (fun _ => None)) "n20" 5 (fresh ∅)
      = (w', Raise (URLError n20_link)) /\
    fs w' = <["data" := Dir]> ∅ /\
    fs w' !! zipPath "n20" = None /\
    notebook (with_server Demo.env (fun _ => None)) "n20" 5 (fresh (fs w'))
      = (w'', Raise (URLError n20_link)) /\
    In (UrlRetrieve n20_link (zipPath "n20")) (trace w'').
Proof.
  apply (failed_download_is_retried
           (with_server Demo.env (fun _ => None)) "n20" 5%Q ∅ n20_link).
  - intros w. reflexivity.
  - reflexivity.
  - reflexivity.
  - left. reflexivity.
Defined.

Lemma cell_download_settled E nl link (f : gmap string node) x :
  f !! "data" = Some Dir ->
  f !! zipPath nl = Some x ->
  exists w2 l2,
    cell_download E nl link (fresh f) = (w2, Ret l2) /\
    fs w2 = f /\
    existsb is_transfer (trace w2) = false.
Proof.
  intros Hdata Hzip.
  destruct (select_link_run nl link
              {| fs := f; trace := ([] ++ [IsDir "./data"])%list |})
    as (l2 & t2 & Hsel & Ht2).
  cbn [fs trace] in Hsel.
  eexists _, l2. split; [| split].
  - unfold cell_download, fresh.
    rewrite (bind_run _ _ _ _ _ (make_data_dir_present _ _ Hdata)).
    rewrite (bind_run _ _ _ _ _ Hsel).
    rewrite (bind_run _ _ _ _ _
               (download_block_present E _ l2
                  {| fs := f; trace := (([] ++ [IsDir "./data"]) ++ t2)%list |}
                  x Hzip)).
    reflexivity.
  - reflexivity.
  - cbn [trace]. rewrite !existsb_app, Ht2. reflexivity.
Qed.

(** X5.  When what the server delivers is not a zip archive, the run
    ends in [BadZipFile] and the file stays on disk; the download cell
    then finds it on every later run, succeeds without retrieving or
    extracting anything, and leaves the file as it is. *)
Theorem unreadable_download_is_kept
    (E : env) (noise_level : string) (n : Q) (f : gmap string node)
    (l : string) :
  (forall w, select_link noise_level None w = (w, Ret (Some l))) ->
  remote E l = Some Raw ->
  f !! zipPath noise_level = None ->
  f !! "data" = None \/ f !! "data" = Some Dir ->
  exists w',
    notebook E noise_level n (fresh f)
      = (w', Raise (BadZipFile (zipPath noise_level))) /\
    fs w' = <[zipPath noise_level := File Raw]> (<["data" := Dir]> f) /\
    forall link2, exists w2 l2,
      cell_download E noise_level link2 (fresh (fs w')) = (w2, Ret l2) /\
      fs w2 = fs w' /\
      existsb is_transfer (trace w2) = false.
Proof.
  intros Hsel Hrem Hzip Hdata.
  destruct (notebook_download_raise E noise_level n f) as (ti & _ & Hnb).
  destruct (cell_download_enter E noise_level None f ti Hdata)
    as (tm & Hcell & _).
  eexists. split; [| split].
  - apply Hnb. rewrite Hcell. rewrite (bind_run _ _ _ _ _ (Hsel _)).
    apply bind_Raise. rewrite (download_block_fetch E _ l _ _ Raw).
    + apply unpack_raw. apply lookup_insert_eq.
    + rewrite lookup_insert_ne by (symmetry; apply data_not_zipPath).
      exact Hzip.
    + exact Hrem.
  - reflexivity.
  - intros link2. cbn [fs].
    apply (cell_download_settled E noise_level link2 _ (File Raw)).
    + rewrite lookup_insert_ne by apply data_not_zipPath.
      apply lookup_insert_eq.
    + apply lookup_insert_eq.
Qed.

Lemma unreadable_download_is_kept_witness :
  exists w',
    notebook (with_server Demo.env (fun _ => Some Raw)) "n20" 5 (fresh ∅)
      = (w', Raise (BadZipFile (zipPath "n20"))) /\
    fs w' = <[zipPath "n20" := File Raw]> (<["data" := Dir]> ∅) /\
    forall link2, exists w2 l2,
      cell_download (with_server Demo.env (fun _ => Some Raw)) "n20" link2
        (fresh (fs w')) = (w2, Ret l2) /\
      fs w2 = fs w' /\
      existsb is_transfer (trace w2) = false.
Proof.
  apply (unreadable_download_is_kept
           (with_server Demo.env (fun _ => Some Raw)) "n20" 5%Q ∅ n20_link).
  - intros w. reflexivity.
  - reflexivity.
  - reflexivity.
  - left. reflexivity.
Defined.



(** X6.  A regular file named [data] in the working directory stops
    every run with [FileExistsError] at [os.mkdir], right after the
    imports: nothing is retrieved and the disk is untouched. *)
Theorem data_file_blocks_the_run
    (E : env) (noise_level : string) (n : Q) (f : gmap string node)
    (c : content) :
  f !! "data" = Some (File c) ->
  exists w',
    notebook E noise_level n (fresh f)
      = (w', Raise (FileExistsError "data")) /\
    fs w' = f /\
    existsb is_transfer (trace w') = false.
Proof.
  intros Hdata.
  destruct (cell_imports_run f []) as (ti & Himp & Hti).
  eexists. split; [| split].
  - unfold notebook. apply bind_Raise. unfold prelude, fresh.
    rewrite (bind_run _ _ _ _ _ Himp). apply bind_Raise.
    unfold cell_download. apply bind_Raise.
    apply (make_data_dir_file f _ c Hdata).
  - reflexivity.
  - cbn [trace]. rewrite !existsb_app, Hti. reflexivity.
Qed.

Lemma data_file_blocks_the_run_witness :
  exists w',
    notebook Demo.env "n20" 5 (fresh {["data" := File Raw]})
      = (w', Raise (FileExistsError "data")) /\
    fs w' = {["data" := File Raw]} /\
    existsb is_transfer (trace w') = false.
Proof.
  apply (data_file_blocks_the_run Demo.env "n20" 5%Q _ Raw). reflexivity.
Defined.



(** ** Loading, assertions and indexing *)



(** X8.  With an empty training set the assertion of cell 6 passes for
    [n = 0] only, and cell 7 then ends in [ZeroDivisionError] when it
    computes the percentage, after the shuffle and before any data is
    zeroed out. *)
Theorem empty_training_set
    (E : env) (n : Q) (train_images train_masks val_images val_masks : ndarray)
    (sh : list N) (w : world) (X' Y' : ndarray) :
  shape train_images = 0%N :: sh ->
  shuffle_train_data E train_images train_masks 1 = Ret (X', Y') ->
  (cell_annotated n train_images w = (w, Ret tt) <-> (n == 0)%Q) /\
  cell_prepare E n train_images train_masks val_images val_masks w
    = ({| fs := fs w;
          trace := (trace w ++ [UtilCall ShuffleTrainData])%list |},
       Raise ZeroDivisionError).
Proof.
  intros Hsh Hshuffle. split.
  - rewrite (cell_annotated_run n _ _ _ w Hsh).
    destruct (Qle_bool 0 n && Qle_bool n (inject_Z (Z.of_N 0))) eqn:Hb.
    + apply in_range_bool in Hb as [H0 H1]. split; [intros _ | reflexivity].
      apply Qle_antisym; assumption.
    + split; [discriminate |]. intros Hn.
      assert (Hin : Qle_bool 0 n && Qle_bool n (inject_Z (Z.of_N 0)) = true).
      { apply in_range_bool. rewrite Hn. split; apply Qle_refl. }
      congruence.
  - unfold cell_prepare, call_util, percentage.
    unfold mbind, M_bind, emit, lift. rewrite Hshuffle.
    unfold shape0. rewrite Hsh. cbn [fs trace]. reflexivity.
Qed.

Lemma empty_training_set_witness :
  cell_prepare Demo.env 0
    (Demo.arr [0; 128; 128]%N Float32 1) (Demo.arr [0; 128; 128]%N UInt16 2)
    (Demo.arr [252; 128; 128]%N Float32 3)
    (Demo.arr [252; 128; 128]%N UInt16 4) (fresh ∅)
  = ({| fs := ∅; trace := ([] ++ [UtilCall ShuffleTrainData])%list |},
     Raise ZeroDivisionError).
Proof.
  apply (empty_training_set Demo.env 0
           (Demo.arr [0; 128; 128]%N Float32 1)
           (Demo.arr [0; 128; 128]%N UInt16 2)
           (Demo.arr [252; 128; 128]%N Float32 3)
           (Demo.arr [252; 128; 128]%N UInt16 4)
           [128; 128]%N (fresh ∅)
           (Demo.arr [0; 128; 128]%N Float32 1)
           (Demo.arr [0; 128; 128]%N UInt16 2)).
  - reflexivity.
  - reflexivity.
Defined.

Lemma percentage_run E n ti total sh w :
  shape ti = total :: sh -> (0 < total)%N ->
  percentage E n ti w
    = (w, Ret (fround E (fround E (n / inject_Z (Z.of_N total)) * 100))).
Proof.
  intros Hsh Htot. unfold percentage.
  erewrite bind_run; [| unfold lift, shape0; rewrite Hsh; reflexivity].
  unfold true_div.
  destruct (Qeq_bool (inject_Z (Z.of_N total)) 0) eqn:Hz.
  - apply Qeq_bool_eq in Hz. unfold Qeq in Hz. cbn in Hz. lia.
  - reflexivity.
Qed.

(** X9.  For a non-empty training set the percentage of cell 7 is
    exactly 0 for [n = 0], exactly 100 for [n] the number of training
    images, and grows with [n]. *)
Theorem percentage_endpoints_and_order
    (E : env) (train_images : ndarray) (total : N) (sh : list N) (w : world) :
  faithful (fround E) ->
  shape train_images = total :: sh ->
  (0 < total)%N ->
  (exists p0, percentage E 0 train_images w = (w, Ret p0) /\ (p0 == 0)%Q) /\
  (exists p1,
     percentage E (inject_Z (Z.of_N total)) train_images w = (w, Ret p1) /\
     (p1 == 100)%Q) /\
  (forall n1 n2 p q,
     (n1 <= n2)%Q ->
     percentage E n1 train_images w = (w, Ret p) ->
     percentage E n2 train_images w = (w, Ret q) ->
     (p <= q)%Q).
Proof.
  intros Hrnd Hsh Htot.
  set (tq := inject_Z (Z.of_N total)).
  assert (Ht : (0 < tq)%Q).
  { unfold tq. change 0%Q with (inject_Z 0). rewrite <- Zlt_Qlt. lia. }
  assert (Ht' : ~ (tq == 0)%Q).
  { intros H. rewrite H in Ht. discriminate Ht. }
  split; [| split].
  - eexists. split; [apply (percentage_run E 0 _ _ _ w Hsh Htot) |].
    fold tq.
    eapply Qeq_trans; [apply (rnd_eq _ Hrnd _ (inject_Z 0)) |
                       apply (rnd_int _ Hrnd 0); lia].
    assert (H0 : (fround E (0 / tq) == 0)%Q).
    { eapply Qeq_trans; [apply (rnd_eq _ Hrnd _ (inject_Z 0)) |
                         apply (rnd_int _ Hrnd 0); lia].
      unfold Qdiv. apply Qmult_0_l. }
    rewrite H0. reflexivity.
  - eexists. split; [apply (percentage_run E _ _ _ _ w Hsh Htot) |].
    fold tq.
    eapply Qeq_trans; [apply (rnd_eq _ Hrnd _ (inject_Z 100)) |
                       apply (rnd_int _ Hrnd 100); lia].
    assert (H1 : (fround E (tq / tq) == 1)%Q).
    { eapply Qeq_trans; [apply (rnd_eq _ Hrnd _ (inject_Z 1)) |
                         apply (rnd_int _ Hrnd 1); lia].
      unfold Qdiv. apply Qmult_inv_r, Ht'. }
    rewrite H1. reflexivity.
  - intros n1 n2 p q Hle Hp Hq.
    rewrite (percentage_run E n1 _ _ _ w Hsh Htot) in Hp.
    rewrite (percentage_run E n2 _ _ _ w Hsh Htot) in Hq.
    injection Hp as <-. injection Hq as <-. fold tq.
    apply (rnd_mono _ Hrnd). apply Qmult_le_compat_r; [| discriminate].
    apply (rnd_mono _ Hrnd). unfold Qdiv.
    apply Qmult_le_compat_r; [exact Hle |].
    apply Qlt_le_weak, Qinv_lt_0_compat, Ht.
Qed.

Lemma percentage_endpoints_and_order_witness :
  exists p1,
    percentage Demo.env (inject_Z (Z.of_N 1428))
      (Demo.arr [1428; 128; 128]%N Float32 1) (fresh ∅) = (fresh ∅, Ret p1) /\
    (p1 == 100)%Q.
Proof.
  apply (percentage_endpoints_and_order Demo.env
           (Demo.arr [1428; 128; 128]%N Float32 1) 1428%N [128; 128]%N
           (fresh ∅)).
  - exact DemoFacts.grid_round_faithful.
  - reflexivity.
  - reflexivity.
Defined.

Lemma index_first_run (a : ndarray) (i : N) :
  index_first a i
  = if has_item a i
    then Ret {| shape := tail (shape a); elt := elt a; payload := payload a |}
    else Raise IndexError.
Proof.
  unfold index_first, has_item. destruct (shape a) as [| s rest]; reflexivity.
Qed.


(** X13.  The export of cell 21 passes the first validation image,
    without its sample and channel axes, to [export_TF]; with no
    validation image it ends in [IndexError] before the call is made. *)
Theorem export_needs_a_validation_image
    (E : env) (m : model) (val_images : ndarray) (w : world) :
  (forall s rest,
     shape val_images = s :: rest -> (0 < s)%N ->
     cell_export E m (newaxis val_images) w
       = call_model ExportTF
           (model_export_TF E m export_kwargs
              {| shape := rest; elt := elt val_images;
                 payload := payload val_images |}) w) /\
  (has_item val_images 0 = false ->
     cell_export E m (newaxis val_images) w = (w, Raise IndexError)).
Proof.
  split.
  - intros s rest Hsh Hs. unfold cell_export.
    erewrite bind_run; [reflexivity |].
    unfold lift, index_first_last, newaxis. cbn [shape elt payload].
    rewrite Hsh. cbn [app].
    rewrite List.map_app. cbn [List.map].
    rewrite last_last, removelast_last.
    apply N.ltb_lt in Hs. rewrite Hs. reflexivity.
  - intros Hno. unfold cell_export. apply bind_Raise.
    unfold lift, index_first_last, newaxis, has_item in *.
    cbn [shape elt payload].
    destruct (shape val_images) as [| s rest]; [reflexivity |].
    cbn [app]. rewrite List.map_app. cbn [List.map].
    rewrite last_last, Hno. reflexivity.
Qed.

Lemma export_needs_a_validation_image_witness :
  cell_export Demo.env
    {| m_conf := []; m_name := "m"; m_basedir := "models"; m_weights := 1 |}
    (newaxis (Demo.arr [0; 128; 128]%N Float32 3)) (fresh ∅)
  = (fresh ∅, Raise IndexError).
Proof.
  apply (proj2 (export_needs_a_validation_image Demo.env _
                  (Demo.arr [0; 128; 128]%N Float32 3) (fresh ∅))).
  reflexivity.
Defined.

(** X10.  More training samples never mean fewer steps per epoch. *)
Theorem steps_per_epoch_monotone
    (E : env) (X1 X2 : ndarray) (s1 s2 : N) (sh1 sh2 : list N) (k1 k2 : Z) :
  faithful (fround E) ->
  shape X1 = s1 :: sh1 -> shape X2 = s2 :: sh2 ->
  (s1 <= s2)%N ->
  train_steps_per_epoch E X1 = Ret k1 ->
  train_steps_per_epoch E X2 = Ret k2 ->
  k1 <= k2.
Proof.
  intros Hrnd Hsh1 Hsh2 Hle H1 H2.
  unfold train_steps_per_epoch, shape0, true_div, train_batch_size in H1, H2.
  rewrite Hsh1 in H1. rewrite Hsh2 in H2.
  change (Qeq_bool (inject_Z 128) 0) with false in H1, H2.
  injection H1 as <-. injection H2 as <-.
  set (q1 := fround E (inject_Z (Z.of_N s1) / inject_Z 128)).
  set (q2 := fround E (inject_Z (Z.of_N s2) / inject_Z 128)).
  assert (Hq0 : forall s : N,
    (0 <= fround E (inject_Z (Z.of_N s) / inject_Z 128))%Q).
  { intros s. eapply Qle_trans; [| apply (rnd_mono _ Hrnd 0)].
    - apply Qle_lteq. right. symmetry. apply (rnd_int _ Hrnd 0). lia.
    - rewrite quotient_128. unfold Qle. cbn [Qnum Qden]. lia. }
  assert (Hq : (q1 <= q2)%Q).
  { apply (rnd_mono _ Hrnd). rewrite !quotient_128.
    unfold Qle. cbn [Qnum Qden]. lia. }
  rewrite (py_int_nonneg q1 (Hq0 s1)), (py_int_nonneg q2 (Hq0 s2)).
  apply Qfloor_resp_le in Hq. lia.
Qed.

Lemma steps_per_epoch_monotone_witness : 100 <= 256.
Proof.
  apply (steps_per_epoch_monotone Demo.env
           (Demo.arr [11424; 128; 128; 1]%N Float32 1)
           (Demo.arr [32800; 128; 128; 1]%N Float32 1)
           11424%N 32800%N [128; 128; 1]%N [128; 128; 1]%N 100 256).
  - exact DemoFacts.grid_round_faithful.
  - reflexivity.
  - reflexivity.
  - discriminate.
  - vm_compute. reflexivity.
  - vm_compute. reflexivity.
Defined.


Lemma index_first_last_run (a : ndarray) (j : N) :
  index_first_last a 0 j
  = if has_channel a j
    then Ret {| shape := removelast (tail (shape a)); elt := elt a;
                payload := payload a |}
    else Raise IndexError.
Proof.
  unfold index_first_last, has_channel.
  destruct (shape a) as [| s rest]; [reflexivity |].
  destruct (List.last (map Some rest) None); reflexivity.
Qed.



Lemma string_length_append (a b : string) :
  String.length (a +:+ b) = (String.length a + String.length b)%nat.
Proof.
  induction a as [| ch a IH]; simpl; [reflexivity | f_equal; exact IH].
Qed.

Lemma append_inj_l (a b s : string) : a +:+ s = b +:+ s -> a = b.
Proof.
  revert b. induction a as [| ch a IH]; intros [| ch' b] H.
  - reflexivity.
  - apply (f_equal String.length) in H.
    rewrite !string_length_append in H. simpl in H. lia.
  - apply (f_equal String.length) in H.
    rewrite !string_length_append in H. simpl in H. lia.
  - simpl in H. injection H as -> H. f_equal. apply IH, H.
Qed.

(** X14.  Different noise levels have different archive paths and
    different data file paths. *)
Theorem paths_of_distinct_noise_levels_differ (nl1 nl2 : string) :
  nl1 <> nl2 ->
  zipPath nl1 <> zipPath nl2 /\
  train_path nl1 <> train_path nl2 /\
  test_path nl1 <> test_path nl2.
Proof.
  intros Hne. unfold zipPath, train_path, test_path.
  repeat split; intros H; apply Hne;
    apply append_inj_r in H; apply append_inj_l in H; exact H.
Qed.

Lemma paths_of_distinct_noise_levels_differ_witness :
  zipPath "n0" <> zipPath "n20" /\
  train_path "n0" <> train_path "n20" /\
  test_path "n0" <> test_path "n20".
Proof.
  apply (paths_of_distinct_noise_levels_differ "n0" "n20"). discriminate.
Defined.

(** ** Completed runs *)

Lemma shape0_Ret a z : shape0 a = Ret z ->
  exists s rest, shape a = s :: rest /\ z = Z.of_N s.
Proof.
  unfold shape0. destruct (shape a) as [| s rest]; [discriminate |].
  intros [= <-]. eexists _, _. split; reflexivity.
Qed.

Lemma true_div_Ret E a b q : true_div E a b = Ret q -> ~ (b == 0)%Q.
Proof.
  unfold true_div. destruct (Qeq_bool b 0) eqn:Hb; [discriminate |].
  intros _ Hz. apply Qeq_bool_iff in Hz. congruence.
Qed.

Lemma index_first_Ret a i b : index_first a i = Ret b -> has_item a i = true.
Proof.
  rewrite index_first_run. destruct (has_item a i); [reflexivity | discriminate].
Qed.

Lemma index_first_last_Ret a j b :
  index_first_last a 0 j = Ret b -> has_channel a j = true.
Proof.
  rewrite index_first_last_run.
  destruct (has_channel a j); [reflexivity | discriminate].
Qed.

Lemma has_channel_newaxis (a : ndarray) :
  has_channel (newaxis a) 0 = has_item a 0.
Proof.
  unfold has_channel, has_item, newaxis. cbn [shape].
  destruct (shape a) as [| s rest]; [reflexivity |].
  cbn [app]. rewrite List.map_app. cbn [List.map]. rewrite last_last.
  apply andb_true_r.
Qed.

(** X15.  What a completed run implies about its inputs: both archives
    are on disk and hold the arrays read, the training set is not empty,
    the number of annotated images lies between 0 and its size, there is
    a validation image, and the test set has more than six images and
    masks. *)
Theorem completed_run_requirements
    (E : env) (noise_level : string) (n : Q) (f : gmap string node)
    (w' : world) :
  notebook E noise_level n (fresh f) = (w', Ret tt) ->
  exists train_arrays test_arrays x_train x_val x_test y_test total sh,
    fs w' !! train_path noise_level = Some (File (Npz train_arrays)) /\
    fs w' !! test_path noise_level = Some (File (Npz test_arrays)) /\
    assoc "X_train" train_arrays = Some x_train /\
    assoc "X_val" train_arrays = Some x_val /\
    assoc "X_test" test_arrays = Some x_test /\
    assoc "Y_test" test_arrays = Some y_test /\
    shape x_train = total :: sh /\
    (0 < total)%N /\
    (0 <= n)%Q /\ (n <= inject_Z (Z.of_N total))%Q /\
    has_item x_val 0 = true /\
    has_item x_test 6 = true /\
    has_item y_test 6 = true.
Proof.
  intros H. notebook_inv H. cbn [fs].
  rewrite normpath_train_path in *. rewrite normpath_test_path in *.
  match goal with
  | Hs : shape0 _ = Ret ?z, Hn : Qle_bool n (inject_Z ?z) = true |- _ =>
      apply shape0_Ret in Hs as (total & sh & Hsh & ->);
      apply Qle_bool_iff in Hn; rename Hn into Hupper
  end.
  match goal with
  | Hs : shape0 _ = Ret ?z, Hd : true_div E n (inject_Z ?z) = Ret _ |- _ =>
      apply shape0_Ret in Hs as (total' & sh' & Hsh' & ->);
      apply true_div_Ret in Hd; rename Hd into Hnonzero
  end.
  cbn [astype shape] in Hsh, Hsh'. rewrite Hsh in Hsh'.
  injection Hsh' as <- <-.
  match goal with
  | Hi : index_first_last (newaxis (astype Float32 _)) 0 0 = Ret _ |- _ =>
      apply index_first_last_Ret in Hi; rewrite has_channel_newaxis in Hi;
      rename Hi into Hval
  end.
  repeat match goal with
  | Hi : index_first _ 6 = Ret _ |- _ => apply index_first_Ret in Hi
  end.
  eexists _, _, _, _, _, _, total, sh.
  repeat (split; [eassumption |]).
  split.
  { destruct total as [| p']; [| reflexivity].
    exfalso. apply Hnonzero. reflexivity. }
  split; [apply Qle_bool_iff; assumption |].
  split; [exact Hupper |].
  split; [exact Hval |]. split; assumption.
Qed.

Lemma completed_run_requirements_witness :
  exists train_arrays test_arrays x_train x_val x_test y_test total sh,
    fs demo_run.1 !! train_path "n20" = Some (File (Npz train_arrays)) /\
    fs demo_run.1 !! test_path "n20" = Some (File (Npz test_arrays)) /\
    assoc "X_train" train_arrays = Some x_train /\
    assoc "X_val" train_arrays = Some x_val /\
    assoc "X_test" test_arrays = Some x_test /\
    assoc "Y_test" test_arrays = Some y_test /\
    shape x_train = total :: sh /\
    (0 < total)%N /\
    (0 <= 5)%Q /\ (5 <= inject_Z (Z.of_N total))%Q /\
    has_item x_val 0 = true /\
    has_item x_test 6 = true /\
    has_item y_test 6 = true.
Proof.
  apply (completed_run_requirements Demo.env "n20" 5%Q ∅ demo_run.1).
  exact demo_run_eq.
Defined.



